(** * Ford car price predictor: feature encoding and inference pipeline

    A shallow embedding of the prediction handler of [src/app.py]
    (the [try] block that runs when the predict button is pressed, lines
    224-348) together with the properties its specification states.

    - Python values that reach the feature vector are integers ([int]) and
      floats; a float is kept as its IEEE-754 binary64 datum
      ([SpecFloat.spec_float]); no floating-point arithmetic happens in the
      handler itself, it only moves the values around.
    - [raw_input] is a Python [dict]: keys are unique and keep insertion
      order, so it is an association list, updated in place when the key
      is present and extended at the end when it is not.
    - [columns], [scaler] and [model] are the three cached artifacts of
      [load_models]; the scaler and the model are external objects, taken
      here as the (fallible) functions [transform] and [predict].
    - The [try] body is written in a small state-and-error monad over the
      cached artifacts; [except Exception as e] is the handler [on_click].
    - [PyStore] runs the same body over a store of Python objects, where
      the dict and the frame are mutated in place and an estimator may
      change its own state; it is related to [on_click] by
      [on_click_st_spec]. *)

From Stdlib Require Import List String Ascii ZArith Bool Lia.
From Stdlib Require Import Floats.SpecFloat.
Import ListNotations.
Open Scope string_scope.

(** ** Python values and exceptions *)

Inductive pyval : Type :=
| VInt (n : Z)
| VFloat (f : spec_float).

(** An exception object: its class and the text [str(e)] gives. *)
Record exn : Type := mk_exn { exn_class : string; exn_str : string }.

Definition result (A : Type) : Type := (exn + A)%type.

(** ** The Python dict *)

Module Dict.

Definition t : Type := list (string * pyval).

Definition empty : t := [].

(** [d[k]] as [d.get(k)]: the value stored under [k], if any. *)
Fixpoint get (d : t) (k : string) : option pyval :=
  match d with
  | [] => None
  | (k', v) :: d' => if String.eqb k' k then Some v else get d' k
  end.

(** [d[k] = v]: overwrite in place, or append a new key. *)
Fixpoint set (d : t) (k : string) (v : pyval) : t :=
  match d with
  | [] => [(k, v)]
  | (k', v') :: d' =>
      if String.eqb k' k then (k', v) :: d' else (k', v') :: set d' k v
  end.

Definition keys (d : t) : list string := map fst d.

(** Several assignments in a row. *)
Definition set_many (d : t) (kvs : list (string * pyval)) : t :=
  fold_left (fun d kv => set d (fst kv) (snd kv)) kvs d.

End Dict.

(** [k in columns] for a list of names. *)
Definition py_in (k : string) (l : list string) : bool :=
  existsb (String.eqb k) l.

(** ** Widget values of one request (sidebar, lines 82-130) *)

Record RawInputs : Type := mk_inputs {
  year : Z;
  mileage : Z;
  tax : Z;
  mpg : spec_float;
  engineSize : spec_float;
  selected_model : string;
  selected_trans : string;
  selected_fuel : string
}.

Definition models : list string :=
  ["B-MAX"; "C-MAX"; "EcoSport"; "Edge"; "Escort"; "Fiesta"; "Focus"; "Fusion";
   "Galaxy"; "Grand C-MAX"; "Grand Tourneo Connect"; "KA"; "Ka+"; "Kuga";
   "Mondeo"; "Mustang"; "Puma"; "Ranger"; "S-MAX"; "Streetka";
   "Tourneo Connect"; "Tourneo Custom"; "Transit Tourneo"].

Definition transmissions : list string := ["Automatic"; "Manual"; "Semi-Auto"].

Definition fuels : list string :=
  ["Diesel"; "Electric"; "Hybrid"; "Other"; "Petrol"].

Definition num_cols : list string :=
  ["year"; "mileage"; "tax"; "mpg"; "engineSize"].

(** ** The encoder (lines 226-247) *)

(** [{col: 0 for col in columns}] *)
Definition init_columns (columns : list string) : Dict.t :=
  fold_left (fun d col => Dict.set d col (VInt 0)) columns Dict.empty.

(** Lines 229-233. *)
Definition set_numeric (inp : RawInputs) (d : Dict.t) : Dict.t :=
  let d := Dict.set d "year" (VInt (year inp)) in
  let d := Dict.set d "mileage" (VInt (mileage inp)) in
  let d := Dict.set d "tax" (VInt (tax inp)) in
  let d := Dict.set d "mpg" (VFloat (mpg inp)) in
  Dict.set d "engineSize" (VFloat (engineSize inp)).

(** Lines 236-239. *)
Definition set_model (columns : list string) (inp : RawInputs) (d : Dict.t)
  : Dict.t :=
  if String.eqb (selected_model inp) "Focus" && py_in "model_Focus" columns
  then Dict.set d "model_Focus" (VInt 1)
  else if py_in ("model_ " ++ selected_model inp) columns
  then Dict.set d ("model_ " ++ selected_model inp) (VInt 1)
  else d.

(** Lines 241-243. *)
Definition set_trans (columns : list string) (inp : RawInputs) (d : Dict.t)
  : Dict.t :=
  let trans_col := "transmission_" ++ selected_trans inp in
  if py_in trans_col columns then Dict.set d trans_col (VInt 1) else d.

(** Lines 245-247. *)
Definition set_fuel (columns : list string) (inp : RawInputs) (d : Dict.t)
  : Dict.t :=
  let fuel_col := "fuelType_" ++ selected_fuel inp in
  if py_in fuel_col columns then Dict.set d fuel_col (VInt 1) else d.

(** The dict after line 233 (numeric fields only). *)
Definition raw_input_numeric (columns : list string) (inp : RawInputs)
  : Dict.t :=
  set_numeric inp (init_columns columns).

(** The dict after line 247: the pre-scale feature vector. *)
Definition raw_input (columns : list string) (inp : RawInputs) : Dict.t :=
  set_fuel columns inp
    (set_trans columns inp
       (set_model columns inp (raw_input_numeric columns inp))).

(** ** The one-row DataFrame (lines 250-252)

    [pd.DataFrame([raw_input])] has one row and the dict's keys, in order,
    as its columns; a one-row frame is that row. *)

Module DataFrame.

Definition t : Type := list (string * pyval).

Definition of_record (d : Dict.t) : t := d.

(** [df[names]]: the row restricted to [names], in the order of [names];
    a missing label is a [KeyError]. *)
Fixpoint getitem (df : t) (names : list string) : result (list pyval) :=
  match names with
  | [] => inr []
  | n :: names' =>
      match Dict.get df n with
      | None => inl (mk_exn "KeyError" ("['" ++ n ++ "'] not in index"))
      | Some v =>
          match getitem df names' with
          | inl e => inl e
          | inr vs => inr (v :: vs)
          end
      end
  end.

Fixpoint assign (df : t) (names : list string) (vals : list pyval) : t :=
  match names, vals with
  | n :: names', v :: vals' => assign (Dict.set df n v) names' vals'
  | _, _ => df
  end.

(** [df[names] = row]: one value per label, else a [ValueError]. *)
Definition setitem (df : t) (names : list string) (vals : list pyval)
  : result t :=
  if Nat.eqb (List.length names) (List.length vals)
  then inr (assign df names vals)
  else inl (mk_exn "ValueError" "Columns must be same length as key").

End DataFrame.

(** ** The cached artifacts ([load_models], lines 56-69) *)

Record artifacts : Type := mk_artifacts {
  model_predict : DataFrame.t -> result (list pyval);
  scaler_transform : list pyval -> result (list pyval);
  columns : list string
}.

(** ** The monad of the [try] body: errors, over the cached artifacts *)

Definition M (A : Type) : Type := artifacts -> result A * artifacts.

Definition ret {A} (x : A) : M A := fun s => (inr x, s).

Definition raise {A} (e : exn) : M A := fun s => (inl e, s).

Definition bind {A B} (m : M A) (k : A -> M B) : M B :=
  fun s =>
    match m s with
    | (inl e, s') => (inl e, s')
    | (inr x, s') => k x s'
    end.

Notation "x <- m ;; k" := (bind m (fun x => k))
  (at level 61, m at next level, right associativity).

Definition lift {A} (r : result A) : M A := fun s => (r, s).

Definition get_columns : M (list string) := fun s => (inr (columns s), s).

Definition call_scaler (xs : list pyval) : M (list pyval) :=
  fun s => (scaler_transform s xs, s).

Definition call_model (df : DataFrame.t) : M (list pyval) :=
  fun s => (model_predict s df, s).

(** [a[0]] *)
Definition getitem0 (out : list pyval) : result pyval :=
  match out with
  | [] => inl (mk_exn "IndexError" "index 0 is out of bounds for axis 0 with size 0")
  | p :: _ => inr p
  end.

(** Lines 250-252. *)
Definition scale (raw : Dict.t) : M DataFrame.t :=
  let input_df := DataFrame.of_record raw in
  xs <- lift (DataFrame.getitem input_df num_cols) ;;
  ys <- call_scaler xs ;;
  lift (DataFrame.setitem input_df num_cols ys).

(** Lines 226-255: the body of the [try] up to the prediction. *)
Definition try_body (inp : RawInputs) : M pyval :=
  cols <- get_columns ;;
  input_df <- scale (raw_input cols inp) ;;
  out <- call_model input_df ;;
  lift (getitem0 out).

(** What the page shows for the request: the price block (lines 263-345,
    presentation, kept as the predicted value) or [st.error]. *)
Inductive outcome : Type :=
| PriceDisplay (prediction : pyval)
| StError (msg : string).

(** Lines 347-348: what [except Exception as e] shows, and what the page
    shows when the body ran through. *)
Definition report (r : result pyval) : outcome :=
  match r with
  | inr prediction => PriceDisplay prediction
  | inl e => StError ("❌ Prediction Error: " ++ exn_str e)
  end.

(** Lines 224-348: one press of the predict button. *)
Definition on_click (inp : RawInputs) (s : artifacts) : outcome * artifacts :=
  let (r, s') := try_body inp s in (report r, s').

(** A computation that leaves the cached artifacts as it found them. *)
Definition preserves {A} (m : M A) : Prop := forall s, snd (m s) = s.

(** ** Notions used by the specification *)

(** The one-hot column the model branch (lines 236-239) tests last and
    sets when it is in the schema. *)
Definition model_col (columns : list string) (inp : RawInputs) : string :=
  if String.eqb (selected_model inp) "Focus" && py_in "model_Focus" columns
  then "model_Focus"
  else "model_ " ++ selected_model inp.

Definition trans_col (inp : RawInputs) : string :=
  "transmission_" ++ selected_trans inp.

Definition fuel_col (inp : RawInputs) : string :=
  "fuelType_" ++ selected_fuel inp.

#[global] Arguments model_col : simpl never.
#[global] Arguments trans_col : simpl never.
#[global] Arguments fuel_col : simpl never.

(** The naming convention as the specification words it: the model name is
    chosen from the value alone. *)
Definition spec_model_col (inp : RawInputs) : string :=
  if String.eqb (selected_model inp) "Focus"
  then "model_Focus"
  else "model_ " ++ selected_model inp.

(** A categorical family is the set of columns with a common prefix. *)
Definition families : list string := ["model_"; "transmission_"; "fuelType_"].

Definition in_family (fam k : string) : bool := String.prefix fam k.

Definition is_one (v : pyval) : bool :=
  match v with
  | VInt 1 => true
  | _ => false
  end.

(** The slots of a family that hold 1. *)
Definition hot_slots (fam : string) (d : Dict.t) : list (string * pyval) :=
  filter (fun kv => in_family fam (fst kv) && is_one (snd kv)) d.

(** The values of the five numeric widgets, in the order of [num_cols]. *)
Definition numeric_values (inp : RawInputs) : list pyval :=
  [VInt (year inp); VInt (mileage inp); VInt (tax inp);
   VFloat (mpg inp); VFloat (engineSize inp)].

(** ** Concrete schemas, requests and stand-in artifacts *)

Module Scenario.

(** 50.0 and 1.6 as binary64 data. *)
Definition f50_0 : spec_float := S754_finite false 7036874417766400 (-47).
Definition f1_6 : spec_float := S754_finite false 7205759403792794 (-52).

(** The defaults of the form with model Focus. *)
Definition focus_request : RawInputs :=
  mk_inputs 2018 30000 150 f50_0 f1_6 "Focus" "Manual" "Petrol".

Definition kuga_request : RawInputs :=
  mk_inputs 2018 30000 150 f50_0 f1_6 "Kuga" "Manual" "Petrol".

Definition full_schema : list string :=
  ["year"; "mileage"; "tax"; "mpg"; "engineSize";
   "model_ Fiesta"; "model_Focus"; "model_ Kuga";
   "transmission_Manual"; "transmission_Semi-Auto";
   "fuelType_Petrol"; "fuelType_Diesel"].

(** A schema that lost its "year" column. *)
Definition drifted_schema : list string :=
  ["mileage"; "tax"; "mpg"; "engineSize";
   "model_ Fiesta"; "model_Focus"; "model_ Kuga";
   "transmission_Manual"; "fuelType_Petrol"].

(** A schema whose Focus column follows the leading-space convention. *)
Definition spaced_schema : list string :=
  ["year"; "mileage"; "tax"; "mpg"; "engineSize";
   "model_ Fiesta"; "model_ Focus"; "model_ Kuga";
   "transmission_Manual"; "fuelType_Petrol"].

(** A schema without any column for Kuga, Manual or Petrol. *)
Definition bare_schema : list string :=
  ["year"; "mileage"; "tax"; "mpg"; "engineSize";
   "model_ Fiesta"; "transmission_Automatic"; "fuelType_Diesel"].

(** A stand-in scaler: integers go to [2 * n + 1], floats are kept. *)
Definition affine (v : pyval) : pyval :=
  match v with
  | VInt n => VInt (2 * n + 1)
  | VFloat f => VFloat f
  end.

Definition mock_transform (xs : list pyval) : result (list pyval) :=
  inr (map affine xs).

(** A stand-in model: the sum of the integer slots of the row. *)
Definition int_part (v : pyval) : Z :=
  match v with
  | VInt n => n
  | VFloat _ => 0
  end.

Definition mock_predict (df : DataFrame.t) : result (list pyval) :=
  inr [VInt (fold_right (fun kv acc => int_part (snd kv) + acc)%Z 0%Z df)].

Definition mock (cols : list string) : artifacts :=
  mk_artifacts mock_predict mock_transform cols.

(** Artifacts whose scaler raises. *)
Definition value_error : exn := mk_exn "ValueError" "bad input".
Definition type_error : exn := mk_exn "TypeError" "bad input".

Definition failing_scaler (e : exn) (cols : list string) : artifacts :=
  mk_artifacts mock_predict (fun _ => inl e) cols.

Definition failing_model (e : exn) (cols : list string) : artifacts :=
  mk_artifacts (fun _ => inl e) mock_transform cols.

End Scenario.

(** ** The page around the prediction (lines 85-199 and 270-345)

    The labels the page derives from the widget values.  A comparison of
    a float with an integer literal is decided on the exact values, as
    Python does it. *)

(** [f > z] for a float [f] and an integer [z]. *)
Definition float_gt_int (f : spec_float) (z : Z) : bool :=
  match f with
  | S754_nan => false
  | S754_infinity s => negb s
  | S754_zero _ => (0 >? z)%Z
  | S754_finite s m e =>
      let v := if s then Z.neg m else Z.pos m in
      if (0 <=? e)%Z then (v * 2 ^ e >? z)%Z else (v >? z * 2 ^ (- e))%Z
  end.

(** [v > z] for a value of the feature vector or of the model's output. *)
Definition py_gt_int (v : pyval) (z : Z) : bool :=
  match v with
  | VInt n => (n >? z)%Z
  | VFloat f => float_gt_int f z
  end.

(** The calls that put a box or a line on the page. *)
Inductive st_call : Type :=
| st_success (body : string)
| st_info (body : string)
| st_warning (body : string)
| st_write (body : string).

(** Line 85. *)
Definition car_age (year : Z) : Z := (2025 - year)%Z.

(** Lines 86-91. *)
Definition age_emoji (car_age : Z) : string :=
  if (car_age <? 3)%Z then "🆕"
  else if (car_age <? 7)%Z then "👌"
  else "👴".

(** Line 144. *)
Definition mileage_delta (mileage : Z) : string :=
  if (mileage <? 50000)%Z then "Low"
  else if (mileage >? 100000)%Z then "High"
  else "Average".

(** Line 148. *)
Definition efficiency_delta (mpg : spec_float) : string :=
  if float_gt_int mpg 50 then "Excellent"
  else if float_gt_int mpg 30 then "Good"
  else "Poor".

(** Lines 182-189. *)
Definition env_score (selected_fuel : string) (mpg : spec_float) : string :=
  if String.eqb selected_fuel "Electric" then "🌱 Excellent"
  else if String.eqb selected_fuel "Hybrid" then "♻️ Good"
  else if float_gt_int mpg 50 then "🌿 Good"
  else "🏭 Average".

(** Lines 194-199. *)
Definition value_indicator (car_age mileage : Z) : string :=
  if (car_age <? 3)%Z && (mileage <? 30000)%Z then "💎 Premium"
  else if (car_age <? 7)%Z && (mileage <? 80000)%Z then "⭐ Good Value"
  else "💰 Budget Friendly".

(** Lines 270-278: the pair [(price_category, price_color)]. *)
Definition price_analysis (prediction : pyval) : string * string :=
  if py_gt_int prediction 30000 then ("🏆 Premium Vehicle", "success")
  else if py_gt_int prediction 15000 then ("⭐ Mid-Range Vehicle", "info")
  else ("💰 Budget-Friendly Vehicle", "warning").

(** Lines 280-285. *)
Definition category_box (prediction : pyval) : st_call :=
  let (price_category, price_color) := price_analysis prediction in
  if String.eqb price_color "success"
  then st_success ("Category: " ++ price_category)
  else if String.eqb price_color "info"
  then st_info ("Category: " ++ price_category)
  else st_warning ("Category: " ++ price_category).

(** [l.append(x)] under a condition. *)
Definition append_if (c : bool) (x : string) (l : list string) : list string :=
  if c then (l ++ [x])%list else l.

(** Lines 315-323. *)
Definition factors (car_age mileage : Z) (mpg : spec_float)
           (selected_fuel : string) : list string :=
  let factors := [] in
  let factors := append_if (car_age <? 5)%Z "• Recent model year" factors in
  let factors := append_if (mileage <? 50000)%Z "• Low mileage" factors in
  let factors := append_if (float_gt_int mpg 40) "• Fuel efficient" factors in
  append_if (py_in selected_fuel ["Electric"; "Hybrid"]) "• Eco-friendly"
    factors.

(** Lines 333-339. *)
Definition considerations (car_age mileage tax : Z) : list string :=
  let considerations := [] in
  let considerations :=
    append_if (car_age >? 10)%Z "• Vehicle age affects value" considerations in
  let considerations :=
    append_if (mileage >? 100000)%Z "• High mileage impacts price"
      considerations in
  append_if (tax >? 300)%Z "• Higher tax bracket" considerations.

(** [if items: for item in items: st.write(item)] [else: st.write(default)]
    (lines 325-329 and 341-345). *)
Definition write_all (items : list string) (default : string) : list st_call :=
  match items with
  | [] => [st_write default]
  | _ :: _ => map st_write items
  end.

(** Lines 314-329: what the left insight column writes. *)
Definition factors_column (inp : RawInputs) : list st_call :=
  write_all
    (factors (car_age (year inp)) (mileage inp) (mpg inp) (selected_fuel inp))
    "• Solid, reliable vehicle".

(** Lines 332-345: what the right insight column writes. *)
Definition considerations_column (inp : RawInputs) : list st_call :=
  write_all (considerations (car_age (year inp)) (mileage inp) (tax inp))
    "• Great overall condition!".

(** ** Requests that differ in one widget *)

Definition with_model (inp : RawInputs) (m : string) : RawInputs :=
  mk_inputs (year inp) (mileage inp) (tax inp) (mpg inp) (engineSize inp)
    m (selected_trans inp) (selected_fuel inp).

Definition with_trans (inp : RawInputs) (t : string) : RawInputs :=
  mk_inputs (year inp) (mileage inp) (tax inp) (mpg inp) (engineSize inp)
    (selected_model inp) t (selected_fuel inp).

Definition with_fuel (inp : RawInputs) (f : string) : RawInputs :=
  mk_inputs (year inp) (mileage inp) (tax inp) (mpg inp) (engineSize inp)
    (selected_model inp) (selected_trans inp) f.

(** The ranges of the sliders and number inputs (lines 82-113). *)
Definition in_form_range (inp : RawInputs) : Prop :=
  (1990 <= year inp <= 2025)%Z
  /\ (0 <= mileage inp <= 300000)%Z
  /\ (0 <= tax inp <= 1000)%Z.

(** ** The handler over the Python object store

    The same [try] block with the objects it touches kept in a store:
    the three cached artifacts are objects shared by every run of the
    script; [raw_input] and [input_df] are objects created by the run and
    mutated in place.  A fitted estimator is an object with an internal
    state, and a call of its method may change that state. *)

Module PyStore.

Definition loc : Type := nat.

Inductive obj (E : Type) : Type :=
| OList (names : list string)
| OEstimator (st : E)
| ODict (d : Dict.t)
| OFrame (df : DataFrame.t).

#[global] Arguments OList {E} names.
#[global] Arguments OEstimator {E} st.
#[global] Arguments ODict {E} d.
#[global] Arguments OFrame {E} df.

(** The store: an object's identity is its position. *)
Definition heap (E : Type) : Type := list (obj E).

(** The names [model], [scaler], [columns] bound at line 69. *)
Record cache : Type := mk_cache {
  c_model : loc;
  c_scaler : loc;
  c_columns : loc
}.

Fixpoint hwrite {E} (h : heap E) (l : loc) (o : obj E) : heap E :=
  match h, l with
  | [], _ => []
  | _ :: h', O => o :: h'
  | x :: h', S l' => x :: hwrite h' l' o
  end.

Definition St (E A : Type) : Type := heap E -> result A * heap E.

Definition ret_st {E A} (x : A) : St E A := fun h => (inr x, h).

Definition raise_st {E A} (e : exn) : St E A := fun h => (inl e, h).

Definition bind_st {E A B} (m : St E A) (k : A -> St E B) : St E B :=
  fun h =>
    match m h with
    | (inl e, h') => (inl e, h')
    | (inr x, h') => k x h'
    end.

Notation "x <~ m ;; k" := (bind_st m (fun x => k))
  (at level 61, m at next level, right associativity).

Definition lift_st {E A} (r : result A) : St E A := fun h => (r, h).

Definition hread {E} (l : loc) : St E (obj E) :=
  fun h =>
    match nth_error h l with
    | Some o => (inr o, h)
    | None => (inl (mk_exn "ReferenceError" "object no longer exists"), h)
    end.

(** A new object, at a position no existing object has. *)
Definition halloc {E} (o : obj E) : St E loc :=
  fun h => (inr (List.length h), (h ++ [o])%list).

Definition hstore {E} (l : loc) (o : obj E) : St E unit :=
  fun h => (inr tt, hwrite h l o).

Definition unexpected : exn := mk_exn "TypeError" "unexpected object".

(** [columns] read as a list of names. *)
Definition list_read {E} (l : loc) : St E (list string) :=
  o <~ hread l ;;
  match o with
  | OList names => ret_st names
  | _ => raise_st unexpected
  end.

(** [k in columns] *)
Definition list_contains {E} (l : loc) (k : string) : St E bool :=
  names <~ list_read l ;; ret_st (py_in k names).

(** [d[k] = v] on the dict object at [l]. *)
Definition dict_setitem {E} (l : loc) (k : string) (v : pyval) : St E unit :=
  o <~ hread l ;;
  match o with
  | ODict d => hstore l (ODict (Dict.set d k v))
  | _ => raise_st unexpected
  end.

(** [pd.DataFrame([d])]: a new frame holding a copy of the dict's row. *)
Definition frame_of_dict {E} (l : loc) : St E loc :=
  o <~ hread l ;;
  match o with
  | ODict d => halloc (OFrame (DataFrame.of_record d))
  | _ => raise_st unexpected
  end.

(** [df[names]]: a copy of the selected values. *)
Definition frame_getitem {E} (l : loc) (names : list string)
  : St E (list pyval) :=
  o <~ hread l ;;
  match o with
  | OFrame df => lift_st (DataFrame.getitem df names)
  | _ => raise_st unexpected
  end.

(** [df[names] = row] on the frame object at [l]. *)
Definition frame_setitem {E} (l : loc) (names : list string)
           (row : list pyval) : St E unit :=
  o <~ hread l ;;
  match o with
  | OFrame df =>
      match DataFrame.setitem df names row with
      | inl e => raise_st e
      | inr df' => hstore l (OFrame df')
      end
  | _ => raise_st unexpected
  end.

(** Lines 229-233 on the dict object [raw]. *)
Definition set_numeric_st {E} (raw : loc) (inp : RawInputs) : St E unit :=
  _ <~ dict_setitem raw "year" (VInt (year inp)) ;;
  _ <~ dict_setitem raw "mileage" (VInt (mileage inp)) ;;
  _ <~ dict_setitem raw "tax" (VInt (tax inp)) ;;
  _ <~ dict_setitem raw "mpg" (VFloat (mpg inp)) ;;
  dict_setitem raw "engineSize" (VFloat (engineSize inp)).

(** Lines 236-239; [and] evaluates its right operand only when the left
    one holds. *)
Definition set_model_st {E} (env : cache) (raw : loc) (inp : RawInputs)
  : St E unit :=
  focus <~ (if String.eqb (selected_model inp) "Focus"
            then list_contains (c_columns env) "model_Focus"
            else ret_st false) ;;
  if focus then dict_setitem raw "model_Focus" (VInt 1)
  else
    spaced <~ list_contains (c_columns env) ("model_ " ++ selected_model inp) ;;
    if spaced
    then dict_setitem raw ("model_ " ++ selected_model inp) (VInt 1)
    else ret_st tt.

(** Lines 241-243. *)
Definition set_trans_st {E} (env : cache) (raw : loc) (inp : RawInputs)
  : St E unit :=
  let trans_col := "transmission_" ++ selected_trans inp in
  present <~ list_contains (c_columns env) trans_col ;;
  if present then dict_setitem raw trans_col (VInt 1) else ret_st tt.

(** Lines 245-247. *)
Definition set_fuel_st {E} (env : cache) (raw : loc) (inp : RawInputs)
  : St E unit :=
  let fuel_col := "fuelType_" ++ selected_fuel inp in
  present <~ list_contains (c_columns env) fuel_col ;;
  if present then dict_setitem raw fuel_col (VInt 1) else ret_st tt.

(** Lines 226-247: the new dict object and its assignments. *)
Definition raw_input_st {E} (env : cache) (inp : RawInputs) : St E loc :=
  cols <~ list_read (c_columns env) ;;
  raw <~ halloc (ODict (init_columns cols)) ;;
  _ <~ set_numeric_st raw inp ;;
  _ <~ set_model_st env raw inp ;;
  _ <~ set_trans_st env raw inp ;;
  _ <~ set_fuel_st env raw inp ;;
  ret_st raw.

(** How the estimators answer: from the estimator's state and the argument
    to a result and the state the call leaves behind. *)
Record methods (E : Type) : Type := mk_methods {
  transform : E -> list pyval -> result (list pyval) * E;
  predict : E -> DataFrame.t -> result (list pyval) * E
}.

#[global] Arguments mk_methods {E} transform predict.
#[global] Arguments transform {E} m st xs.
#[global] Arguments predict {E} m st df.

(** [scaler.transform(xs)] on the estimator object at [l]. *)
Definition call_transform {E} (ms : methods E) (l : loc) (xs : list pyval)
  : St E (list pyval) :=
  o <~ hread l ;;
  match o with
  | OEstimator st =>
      let (r, st') := transform ms st xs in
      _ <~ hstore l (OEstimator st') ;; lift_st r
  | _ => raise_st unexpected
  end.

(** [model.predict(input_df)] on the estimator object at [l]. *)
Definition call_predict {E} (ms : methods E) (l : loc) (input_df : loc)
  : St E (list pyval) :=
  o <~ hread l ;;
  match o with
  | OEstimator st =>
      f <~ hread input_df ;;
      match f with
      | OFrame df =>
          let (r, st') := predict ms st df in
          _ <~ hstore l (OEstimator st') ;; lift_st r
      | _ => raise_st unexpected
      end
  | _ => raise_st unexpected
  end.

(** Lines 226-255. *)
Definition try_body_st {E} (ms : methods E) (env : cache) (inp : RawInputs)
  : St E pyval :=
  raw <~ raw_input_st env inp ;;
  input_df <~ frame_of_dict raw ;;
  xs <~ frame_getitem input_df num_cols ;;
  ys <~ call_transform ms (c_scaler env) xs ;;
  _ <~ frame_setitem input_df num_cols ys ;;
  out <~ call_predict ms (c_model env) input_df ;;
  lift_st (getitem0 out).

(** Lines 224-348 over the store. *)
Definition on_click_st {E} (ms : methods E) (env : cache) (inp : RawInputs)
           (h : heap E) : outcome * heap E :=
  let (r, h') := try_body_st ms env inp h in (report r, h').

(** The store holds the three cached artifacts where [env] says. *)
Definition cached {E} (env : cache) (h : heap E) (cols : list string)
           (scaler_st model_st : E) : Prop :=
  nth_error h (c_columns env) = Some (OList cols)
  /\ nth_error h (c_scaler env) = Some (OEstimator scaler_st)
  /\ nth_error h (c_model env) = Some (OEstimator model_st).

(** The artifacts as the state-free model sees them. *)
Definition artifacts_of {E} (ms : methods E) (cols : list string)
           (scaler_st model_st : E) : artifacts :=
  mk_artifacts (fun df => fst (predict ms model_st df))
    (fun xs => fst (transform ms scaler_st xs)) cols.

End PyStore.

(** Stand-in estimators over the store: the state is a call counter. *)
Module StoreScenario.

Definition env : PyStore.cache := PyStore.mk_cache 0 1 2.

Definition store (cols : list string) : PyStore.heap Z :=
  [PyStore.OEstimator 0%Z; PyStore.OEstimator 0%Z; PyStore.OList cols].

(** Estimators that answer as [Scenario.mock] and keep their state. *)
Definition fitted : PyStore.methods Z :=
  PyStore.mk_methods
    (fun st xs => (Scenario.mock_transform xs, st))
    (fun st df => (Scenario.mock_predict df, st)).

(** A scaler that counts its calls and shifts its answer by the count. *)
Definition drifting : PyStore.methods Z :=
  PyStore.mk_methods
    (fun st xs =>
       (inr (map (fun v => match v with
                           | VInt n => VInt (n + st)
                           | VFloat f => VFloat f
                           end) xs), (st + 1)%Z))
    (fun st df => (Scenario.mock_predict df, st)).

End StoreScenario.

(** * Properties *)

(** ** Dict lemmas *)

Lemma py_in_true (k : string) (l : list string) :
  py_in k l = true <-> In k l.
Proof.
  unfold py_in. rewrite existsb_exists. split.
  - intros [x [Hin Heq]]. apply String.eqb_eq in Heq. now subst.
  - intros Hin. exists k. split; [assumption | apply String.eqb_refl].
Qed.

Lemma py_in_false (k : string) (l : list string) :
  py_in k l = false <-> ~ In k l.
Proof.
  rewrite <- py_in_true. destruct (py_in k l); split; congruence.
Qed.

Lemma py_in_cons (k c : string) (l : list string) :
  py_in k (c :: l) = String.eqb k c || py_in k l.
Proof. reflexivity. Qed.

Lemma py_in_app (k : string) (l1 l2 : list string) :
  py_in k (l1 ++ l2)%list = py_in k l1 || py_in k l2.
Proof. unfold py_in. apply existsb_app. Qed.

Module DictFacts.
Import Dict.

Lemma get_set (d : t) (k k' : string) (v : pyval) :
  get (set d k v) k' = if String.eqb k k' then Some v else get d k'.
Proof.
  induction d as [| [k0 v0] d IH]; simpl.
  - reflexivity.
  - destruct (String.eqb_spec k0 k) as [-> | Hk0]; simpl.
    + destruct (String.eqb k k'); reflexivity.
    + rewrite IH. destruct (String.eqb_spec k0 k') as [-> | Hk0'].
      * destruct (String.eqb_spec k k'); [congruence | reflexivity].
      * reflexivity.
Qed.

Lemma get_set_same (d : t) (k : string) (v : pyval) :
  get (set d k v) k = Some v.
Proof. now rewrite get_set, String.eqb_refl. Qed.

Lemma get_set_other (d : t) (k k' : string) (v : pyval) :
  k <> k' -> get (set d k v) k' = get d k'.
Proof.
  intros Hne. rewrite get_set.
  destruct (String.eqb_spec k k'); [contradiction | reflexivity].
Qed.

Lemma get_None (d : t) (k : string) :
  get d k = None <-> ~ In k (keys d).
Proof.
  induction d as [| [k0 v0] d IH]; simpl.
  - tauto.
  - destruct (String.eqb_spec k0 k) as [-> | Hne].
    + split; [discriminate | tauto].
    + rewrite IH. tauto.
Qed.

Lemma get_Some_key (d : t) (k : string) (v : pyval) :
  get d k = Some v -> In k (keys d).
Proof.
  intros Hget. destruct (in_dec string_dec k (keys d)) as [Hin | Hout].
  - assumption.
  - apply get_None in Hout. congruence.
Qed.

Lemma keys_set (d : t) (k : string) (v : pyval) :
  keys (set d k v)
  = if py_in k (keys d) then keys d else (keys d ++ [k])%list.
Proof.
  induction d as [| [k0 v0] d IH]; simpl.
  - reflexivity.
  - rewrite (String.eqb_sym k k0).
    destruct (String.eqb_spec k0 k) as [-> | Hne]; simpl.
    + reflexivity.
    + fold (py_in k (keys d)). unfold keys in IH |- *. rewrite IH.
      destruct (py_in k (map fst d)); reflexivity.
Qed.

Lemma keys_set_in (d : t) (k : string) (v : pyval) :
  In k (keys d) -> keys (set d k v) = keys d.
Proof.
  intros Hin. rewrite keys_set.
  apply py_in_true in Hin. now rewrite Hin.
Qed.

Lemma NoDup_keys_set (d : t) (k : string) (v : pyval) :
  NoDup (keys d) -> NoDup (keys (set d k v)).
Proof.
  intros Hnd. rewrite keys_set.
  destruct (py_in k (keys d)) eqn:Hin; [assumption |].
  apply py_in_false in Hin.
  apply NoDup_app; [assumption | repeat constructor; simpl; tauto |].
  intros x Hx [<- | []]. contradiction.
Qed.

(** Under unique keys a pair is in the dict exactly when [get] finds it. *)
Lemma In_get (d : t) (k : string) (v : pyval) :
  NoDup (keys d) -> In (k, v) d -> get d k = Some v.
Proof.
  induction d as [| [k0 v0] d IH]; simpl; intros Hnd Hin.
  - contradiction.
  - inversion Hnd as [| ? ? Hout Hnd']; subst.
    destruct Hin as [Heq | Hin].
    + inversion Heq; subst. now rewrite String.eqb_refl.
    + destruct (String.eqb_spec k0 k) as [-> | Hne].
      * exfalso. apply Hout. apply (in_map fst) in Hin. exact Hin.
      * now apply IH.
Qed.

End DictFacts.

(** ** The dict comprehension and the numeric assignments *)

Section Encoder.
Import Dict DictFacts.

Variable cols : list string.
Variable inp : RawInputs.

Lemma get_fold_init (l : list string) (d : t) (k : string) :
  get (fold_left (fun d col => set d col (VInt 0)) l d) k
  = if py_in k l then Some (VInt 0) else get d k.
Proof.
  revert d. induction l as [| c l IH]; intros d; simpl.
  - reflexivity.
  - rewrite IH, get_set, (String.eqb_sym k c).
    destruct (py_in k l), (String.eqb c k); reflexivity.
Qed.

Lemma get_init (k : string) :
  get (init_columns cols) k = if py_in k cols then Some (VInt 0) else None.
Proof. unfold init_columns. now rewrite get_fold_init. Qed.

Lemma NoDup_keys_fold (l : list string) (d : t) :
  NoDup (keys d) ->
  NoDup (keys (fold_left (fun d col => set d col (VInt 0)) l d)).
Proof.
  revert d. induction l as [| c l IH]; intros d Hnd; simpl.
  - assumption.
  - apply IH. now apply NoDup_keys_set.
Qed.

Lemma NoDup_keys_init : NoDup (keys (init_columns cols)).
Proof. apply NoDup_keys_fold. constructor. Qed.

Lemma in_keys_init (k : string) : In k (keys (init_columns cols)) <-> In k cols.
Proof.
  pose proof (get_init k) as Hget. split; intros Hin.
  - apply py_in_true. destruct (py_in k cols); [reflexivity |].
    exfalso. apply get_None in Hget. contradiction.
  - apply py_in_true in Hin. rewrite Hin in Hget.
    now apply get_Some_key in Hget.
Qed.

Lemma py_in_keys_init (k : string) :
  py_in k (keys (init_columns cols)) = py_in k cols.
Proof.
  destruct (py_in k cols) eqn:E.
  - apply py_in_true, in_keys_init, py_in_true, E.
  - apply py_in_false. rewrite in_keys_init. now apply py_in_false.
Qed.

(** A schema without repeated names is kept as it is, order included. *)
Lemma keys_fold_NoDup (l : list string) (d : t) :
  NoDup (keys d ++ l)%list ->
  keys (fold_left (fun d col => set d col (VInt 0)) l d) = (keys d ++ l)%list.
Proof.
  revert d. induction l as [| c l IH]; intros d Hnd; simpl.
  - now rewrite app_nil_r.
  - assert (Hout : ~ In c (keys d)).
    { intros Hin. apply NoDup_remove_2 in Hnd. apply Hnd.
      apply in_or_app. now left. }
    assert (Hk : keys (set d c (VInt 0)) = (keys d ++ [c])%list).
    { rewrite keys_set. apply py_in_false in Hout. now rewrite Hout. }
    rewrite IH; rewrite Hk, <- app_assoc; simpl; [reflexivity | assumption].
Qed.

Lemma keys_init_NoDup : NoDup cols -> keys (init_columns cols) = cols.
Proof. intros Hnd. unfold init_columns. now rewrite keys_fold_NoDup. Qed.

(** Several assignments in a row: keys already present keep their place,
    new ones are appended in the order of assignment. *)
Lemma keys_set_many (kvs : list (string * pyval)) (d : t) :
  NoDup (map fst kvs) ->
  keys (set_many d kvs)
  = (keys d ++ filter (fun k => negb (py_in k (keys d))) (map fst kvs))%list.
Proof.
  revert d. induction kvs as [| [k v] kvs IH]; intros d Hnd; simpl.
  - now rewrite app_nil_r.
  - inversion Hnd as [| ? ? Hout Hnd']; subst.
    unfold set_many in IH |- *. simpl. rewrite (IH _ Hnd'), keys_set.
    destruct (py_in k (keys d)) eqn:Hk; simpl.
    + reflexivity.
    + rewrite <- app_assoc. simpl. do 2 f_equal.
      apply filter_ext_in. intros x Hx. rewrite py_in_app. simpl.
      destruct (String.eqb_spec x k) as [-> | Hne]; [contradiction |].
      now rewrite !orb_false_r.
Qed.

Lemma set_numeric_many (d : t) :
  set_numeric inp d = set_many d (combine num_cols (numeric_values inp)).
Proof. reflexivity. Qed.

Lemma keys_raw_input_numeric :
  keys (raw_input_numeric cols inp)
  = (keys (init_columns cols)
     ++ filter (fun n => negb (py_in n cols)) num_cols)%list.
Proof.
  unfold raw_input_numeric. rewrite set_numeric_many, keys_set_many.
  - f_equal. apply filter_ext. intros k. now rewrite py_in_keys_init.
  - simpl. repeat constructor; simpl; intuition discriminate.
Qed.

Lemma get_raw_input_numeric (k : string) :
  get (raw_input_numeric cols inp) k
  = if String.eqb "engineSize" k then Some (VFloat (engineSize inp))
    else if String.eqb "mpg" k then Some (VFloat (mpg inp))
    else if String.eqb "tax" k then Some (VInt (tax inp))
    else if String.eqb "mileage" k then Some (VInt (mileage inp))
    else if String.eqb "year" k then Some (VInt (year inp))
    else if py_in k cols then Some (VInt 0) else None.
Proof.
  unfold raw_input_numeric, set_numeric. now rewrite !get_set, get_init.
Qed.

Lemma NoDup_keys_raw_input_numeric : NoDup (keys (raw_input_numeric cols inp)).
Proof.
  unfold raw_input_numeric, set_numeric.
  repeat apply NoDup_keys_set. apply NoDup_keys_init.
Qed.

Lemma in_keys_raw_input_numeric (k : string) :
  In k cols -> In k (keys (raw_input_numeric cols inp)).
Proof.
  intros Hin. rewrite keys_raw_input_numeric. apply in_or_app. left.
  now apply in_keys_init.
Qed.

(** ** The three categorical branches *)

Lemma model_col_cases :
  (selected_model inp = "Focus" /\ In "model_Focus" cols
   /\ model_col cols inp = "model_Focus")
  \/ ((selected_model inp <> "Focus" \/ ~ In "model_Focus" cols)
      /\ model_col cols inp = "model_ " ++ selected_model inp).
Proof.
  unfold model_col.
  destruct (String.eqb_spec (selected_model inp) "Focus") as [E | E];
    destruct (py_in "model_Focus" cols) eqn:P; simpl.
  - left. apply py_in_true in P. tauto.
  - right. apply py_in_false in P. tauto.
  - right. tauto.
  - right. tauto.
Qed.

Lemma set_model_col (d : t) :
  set_model cols inp d
  = if py_in (model_col cols inp) cols
    then set d (model_col cols inp) (VInt 1) else d.
Proof.
  unfold set_model, model_col.
  destruct (String.eqb (selected_model inp) "Focus"); simpl;
    [destruct (py_in "model_Focus" cols) eqn:P; [now rewrite P |] |];
    reflexivity.
Qed.

Lemma get_raw_input (k : string) :
  get (raw_input cols inp) k
  = if py_in (fuel_col inp) cols && String.eqb (fuel_col inp) k
    then Some (VInt 1)
    else if py_in (trans_col inp) cols && String.eqb (trans_col inp) k
    then Some (VInt 1)
    else if py_in (model_col cols inp) cols
            && String.eqb (model_col cols inp) k
    then Some (VInt 1)
    else get (raw_input_numeric cols inp) k.
Proof.
  unfold raw_input, set_fuel, set_trans. rewrite set_model_col.
  fold (fuel_col inp) (trans_col inp).
  destruct (py_in (fuel_col inp) cols), (py_in (trans_col inp) cols),
    (py_in (model_col cols inp) cols);
    simpl; rewrite ?get_set; reflexivity.
Qed.

Lemma keys_raw_input :
  keys (raw_input cols inp) = keys (raw_input_numeric cols inp).
Proof.
  unfold raw_input, set_fuel, set_trans. rewrite set_model_col.
  fold (fuel_col inp) (trans_col inp).
  destruct (py_in (fuel_col inp) cols) eqn:F,
    (py_in (trans_col inp) cols) eqn:T,
    (py_in (model_col cols inp) cols) eqn:Mo;
    rewrite ?keys_set_in; try reflexivity;
    rewrite ?keys_set_in; try reflexivity;
    rewrite ?keys_set_in; try reflexivity;
    apply in_keys_raw_input_numeric, py_in_true; assumption.
Qed.

Lemma NoDup_keys_raw_input : NoDup (keys (raw_input cols inp)).
Proof. rewrite keys_raw_input. apply NoDup_keys_raw_input_numeric. Qed.

End Encoder.

(** ** Column names: families and the numeric names *)

Lemma prefix_app (p r : string) : String.prefix p (p ++ r) = true.
Proof.
  induction p as [| a p IH]; cbn.
  - now destruct r.
  - destruct (ascii_dec a a); [assumption | congruence].
Qed.

Lemma prefix_inv (p k : string) :
  String.prefix p k = true -> exists r, k = p ++ r.
Proof.
  revert k. induction p as [| a p IH]; intros k H.
  - now exists k.
  - destruct k as [| b k]; [discriminate |].
    cbn in H. revert H. destruct (ascii_dec a b) as [<- | ]; [| discriminate].
    intros H. destruct (IH _ H) as [r ->]. now exists r.
Qed.

Lemma model_col_family (cols : list string) (inp : RawInputs) :
  in_family "model_" (model_col cols inp) = true.
Proof.
  unfold model_col, in_family.
  destruct (_ && _); [reflexivity |].
  apply (prefix_app "model_" (" " ++ selected_model inp)).
Qed.

Lemma trans_col_family (inp : RawInputs) :
  in_family "transmission_" (trans_col inp) = true.
Proof. apply prefix_app. Qed.

Lemma fuel_col_family (inp : RawInputs) :
  in_family "fuelType_" (fuel_col inp) = true.
Proof. apply prefix_app. Qed.

Lemma family_not_numeric (fam k : string) :
  In fam families -> in_family fam k = true -> ~ In k num_cols.
Proof.
  intros Hfam Hk Hnum. unfold in_family in Hk.
  simpl in Hfam, Hnum.
  repeat (destruct Hfam as [<- | Hfam]; [| try contradiction]);
    repeat (destruct Hnum as [<- | Hnum]; [| try contradiction]);
    vm_compute in Hk; discriminate.
Qed.

Lemma family_disjoint (f1 f2 k : string) :
  In f1 families -> In f2 families ->
  in_family f1 k = true -> in_family f2 k = true -> f1 = f2.
Proof.
  intros H1 H2 K1 K2. unfold in_family in *.
  apply prefix_inv in K1. destruct K1 as [r ->].
  simpl in H1, H2.
  repeat (destruct H1 as [<- | H1]; [| try contradiction]);
    repeat (destruct H2 as [<- | H2]; [| try contradiction]);
    try reflexivity; vm_compute in K2; discriminate.
Qed.

(** ** What each slot of the pre-scale vector holds *)

Section Slots.
Import Dict DictFacts.

Variable cols : list string.
Variable inp : RawInputs.

Let raw := raw_input cols inp.

Lemma candidate_not_numeric (c n : string) :
  c = fuel_col inp \/ c = trans_col inp \/ c = model_col cols inp ->
  In n num_cols -> String.eqb c n = false.
Proof.
  intros Hc Hn. apply String.eqb_neq. intros ->.
  destruct Hc as [-> | [-> | ->]].
  - apply (family_not_numeric "fuelType_" (fuel_col inp));
      [simpl; tauto | apply fuel_col_family | exact Hn].
  - apply (family_not_numeric "transmission_" (trans_col inp));
      [simpl; tauto | apply trans_col_family | exact Hn].
  - apply (family_not_numeric "model_" (model_col cols inp));
      [simpl; tauto | apply model_col_family | exact Hn].
Qed.

Lemma get_numeric_slots :
  DataFrame.getitem (DataFrame.of_record raw) num_cols
  = inr (numeric_values inp).
Proof.
  unfold DataFrame.of_record, raw, num_cols. simpl DataFrame.getitem.
  rewrite !get_raw_input.
  rewrite !candidate_not_numeric by (simpl; tauto).
  rewrite !andb_false_r, !get_raw_input_numeric. reflexivity.
Qed.

Lemma get_numeric_slot (i : nat) (n : string) :
  nth_error num_cols i = Some n ->
  get raw n = nth_error (numeric_values inp) i.
Proof.
  intros Hn. unfold raw. rewrite get_raw_input.
  assert (Hin : In n num_cols) by (eapply nth_error_In; eassumption).
  rewrite !candidate_not_numeric by tauto.
  rewrite !andb_false_r, get_raw_input_numeric.
  do 5 (destruct i as [| i]; [inversion Hn; subst; reflexivity |]).
  destruct i; discriminate.
Qed.

(** A slot that is none of the five numeric ones exists exactly when its
    name is in the schema, and holds 1 when it is the column of one of
    the three selected categories, 0 otherwise. *)
Lemma get_other_slot (k : string) :
  ~ In k num_cols ->
  get raw k
  = if py_in k cols
    then Some (VInt (if String.eqb (fuel_col inp) k
                        || String.eqb (trans_col inp) k
                        || String.eqb (model_col cols inp) k
                     then 1 else 0))
    else None.
Proof.
  intros Hk. unfold raw. rewrite get_raw_input, get_raw_input_numeric.
  assert (Hne : forall n, In n num_cols -> String.eqb n k = false).
  { intros n Hn. apply String.eqb_neq. intros ->. contradiction. }
  rewrite (Hne "engineSize"), (Hne "mpg"), (Hne "tax"), (Hne "mileage"),
    (Hne "year") by (simpl; tauto).
  assert (Hg : forall c, py_in c cols && String.eqb c k
                         = py_in k cols && String.eqb c k).
  { intros c. destruct (String.eqb_spec c k) as [-> | _];
      [reflexivity | now rewrite !andb_false_r]. }
  rewrite !Hg.
  destruct (py_in k cols), (String.eqb (fuel_col inp) k),
    (String.eqb (trans_col inp) k), (String.eqb (model_col cols inp) k);
    reflexivity.
Qed.

(** Right after the numeric assignments every other slot is 0. *)
Lemma get_other_slot_numeric (k : string) :
  ~ In k num_cols ->
  get (raw_input_numeric cols inp) k
  = if py_in k cols then Some (VInt 0) else None.
Proof.
  intros Hk. rewrite get_raw_input_numeric.
  assert (Hne : forall n, In n num_cols -> String.eqb n k = false).
  { intros n Hn. apply String.eqb_neq. intros ->. contradiction. }
  now rewrite (Hne "engineSize"), (Hne "mpg"), (Hne "tax"), (Hne "mileage"),
    (Hne "year") by (simpl; tauto).
Qed.

(** Within a family only the family's own candidate can be hot. *)
Lemma get_family_slot (fam cand k : string) :
  (fam = "model_" /\ cand = model_col cols inp)
  \/ (fam = "transmission_" /\ cand = trans_col inp)
  \/ (fam = "fuelType_" /\ cand = fuel_col inp) ->
  in_family fam k = true ->
  get raw k
  = if py_in k cols
    then Some (VInt (if String.eqb cand k then 1 else 0))
    else None.
Proof.
  intros Hfam Hk.
  assert (Hin : In fam families) by (simpl; intuition).
  rewrite get_other_slot by (eapply family_not_numeric; eassumption).
  assert (Hother : forall f c, In f families -> in_family f c = true ->
                               f <> fam -> String.eqb c k = false).
  { intros f c Hf Hc Hne. apply String.eqb_neq. intros ->.
    apply Hne. eapply family_disjoint; eassumption. }
  pose proof (Hother "model_" (model_col cols inp)) as Hm.
  pose proof (Hother "transmission_" (trans_col inp)) as Ht.
  pose proof (Hother "fuelType_" (fuel_col inp)) as Hf.
  pose proof (model_col_family cols inp) as Fm.
  pose proof (trans_col_family inp) as Ft.
  pose proof (fuel_col_family inp) as Ff.
  destruct Hfam as [[-> ->] | [[-> ->] | [-> ->]]].
  - rewrite Ht, Hf by (simpl; tauto || assumption || discriminate).
    reflexivity.
  - rewrite Hm, Hf by (simpl; tauto || assumption || discriminate).
    cbn [orb]. now rewrite ?orb_false_r.
  - rewrite Hm, Ht by (simpl; tauto || assumption || discriminate).
    cbn [orb]. now rewrite ?orb_false_r.
Qed.

Lemma slot_is_widget_or_bit (k : string) (v : pyval) :
  get raw k = Some v ->
  In v (numeric_values inp ++ [VInt 0; VInt 1])%list.
Proof.
  intros Hget. destruct (in_dec string_dec k num_cols) as [Hnum | Hother].
  - apply In_nth_error in Hnum. destruct Hnum as [i Hi].
    rewrite (get_numeric_slot i k Hi) in Hget.
    apply in_or_app. left. eapply nth_error_In. eassumption.
  - rewrite get_other_slot in Hget by assumption.
    apply in_or_app. right.
    destruct (py_in k cols); [| discriminate].
    inversion Hget; subst. destruct (_ || _); simpl; tauto.
Qed.

End Slots.

(** ** The cached artifacts are only read *)

Create HintDb frame.

Lemma preserves_ret {A} (x : A) : preserves (ret x).
Proof. intros s. reflexivity. Qed.

Lemma preserves_raise {A} (e : exn) : preserves (@raise A e).
Proof. intros s. reflexivity. Qed.

Lemma preserves_lift {A} (r : result A) : preserves (lift r).
Proof. intros s. reflexivity. Qed.

Lemma preserves_get_columns : preserves get_columns.
Proof. intros s. reflexivity. Qed.

Lemma preserves_call_scaler (xs : list pyval) : preserves (call_scaler xs).
Proof. intros s. reflexivity. Qed.

Lemma preserves_call_model (df : DataFrame.t) : preserves (call_model df).
Proof. intros s. reflexivity. Qed.

Lemma preserves_bind {A B} (m : M A) (k : A -> M B) :
  preserves m -> (forall x, preserves (k x)) -> preserves (bind m k).
Proof.
  intros Hm Hk s. unfold bind. specialize (Hm s).
  destruct (m s) as [[e | x] s']; simpl in *; subst.
  - reflexivity.
  - apply Hk.
Qed.

#[global] Hint Resolve preserves_ret preserves_raise preserves_lift
  preserves_get_columns preserves_call_scaler preserves_call_model
  preserves_bind : frame.

Lemma preserves_scale (raw : Dict.t) : preserves (scale raw).
Proof. unfold scale. auto 10 with frame. Qed.

Lemma preserves_try_body (inp : RawInputs) : preserves (try_body inp).
Proof. unfold try_body. pose proof preserves_scale. auto 10 with frame. Qed.

Lemma on_click_state (inp : RawInputs) (s : artifacts) :
  snd (on_click inp s) = s.
Proof.
  unfold on_click. pose proof (preserves_try_body inp s) as H.
  destruct (try_body inp s) as [r s']; exact H.
Qed.

(** ** The stages of the [try] body, one after the other *)

Lemma scale_eq (raw : Dict.t) (s : artifacts) :
  scale raw s
  = match DataFrame.getitem (DataFrame.of_record raw) num_cols with
    | inl e => (inl e, s)
    | inr xs =>
        match scaler_transform s xs with
        | inl e => (inl e, s)
        | inr ys =>
            (DataFrame.setitem (DataFrame.of_record raw) num_cols ys, s)
        end
    end.
Proof.
  unfold scale, bind, lift, call_scaler.
  destruct (DataFrame.getitem _ _) as [e | xs]; [reflexivity |].
  destruct (scaler_transform s xs); reflexivity.
Qed.

Lemma scale_raw_input (inp : RawInputs) (s : artifacts) :
  scale (raw_input (columns s) inp) s
  = match scaler_transform s (numeric_values inp) with
    | inl e => (inl e, s)
    | inr ys =>
        (DataFrame.setitem (raw_input (columns s) inp) num_cols ys, s)
    end.
Proof. now rewrite scale_eq, get_numeric_slots. Qed.

Lemma try_body_eq (inp : RawInputs) (s : artifacts) :
  try_body inp s
  = match scale (raw_input (columns s) inp) s with
    | (inl e, _) => (inl e, s)
    | (inr input_df, _) =>
        match model_predict s input_df with
        | inl e => (inl e, s)
        | inr out => (getitem0 out, s)
        end
    end.
Proof.
  unfold try_body, bind, get_columns, call_model, lift.
  pose proof (preserves_scale (raw_input (columns s) inp) s) as H.
  destruct (scale _ s) as [[e | df] s']; simpl in H; subst; [reflexivity |].
  destruct (model_predict s df); reflexivity.
Qed.

(** ** Column assignment on the frame *)

Section Assign.
Import Dict DictFacts.

Lemma get_assign_other (names : list string) (vals : list pyval)
      (df : DataFrame.t) (k : string) :
  ~ In k names -> get (DataFrame.assign df names vals) k = get df k.
Proof.
  revert df vals. induction names as [| n names IH]; intros df vals Hk.
  - reflexivity.
  - destruct vals as [| v vals]; [reflexivity |]. simpl.
    rewrite IH by (simpl in Hk; tauto).
    apply get_set_other. simpl in Hk. intuition.
Qed.

Lemma get_assign_nth (names : list string) (vals : list pyval)
      (df : DataFrame.t) (i : nat) (n : string) :
  NoDup names -> List.length names = List.length vals ->
  nth_error names i = Some n ->
  get (DataFrame.assign df names vals) n = nth_error vals i.
Proof.
  revert df vals i.
  induction names as [| n0 names IH]; intros df vals i Hnd Hlen Hn.
  - destruct i; discriminate.
  - destruct vals as [| v vals]; [discriminate |].
    inversion Hnd as [| ? ? Hout Hnd']; subst. simpl.
    destruct i as [| i]; simpl in Hn |- *.
    + inversion Hn; subst.
      now rewrite get_assign_other, get_set_same.
    + apply IH; [assumption | simpl in Hlen; lia | assumption].
Qed.

Lemma keys_assign (names : list string) (vals : list pyval)
      (df : DataFrame.t) :
  (forall n, In n names -> In n (keys df)) ->
  keys (DataFrame.assign df names vals) = keys df.
Proof.
  revert df vals. induction names as [| n names IH]; intros df vals Hin.
  - reflexivity.
  - destruct vals as [| v vals]; [reflexivity |]. simpl.
    assert (Hk : keys (set df n v) = keys df)
      by (apply keys_set_in, Hin; simpl; tauto).
    rewrite IH; rewrite Hk; [reflexivity |].
    intros m Hm. apply Hin. simpl. tauto.
Qed.

Lemma getitem_of_gets (names : list string) (vals : list pyval)
      (df : DataFrame.t) :
  List.length names = List.length vals ->
  (forall i n, nth_error names i = Some n ->
     get df n = nth_error vals i) ->
  DataFrame.getitem df names = inr vals.
Proof.
  revert vals. induction names as [| n names IH]; intros vals Hlen Hget.
  - destruct vals; [reflexivity | discriminate].
  - destruct vals as [| v vals]; [discriminate |]. simpl.
    rewrite (Hget 0%nat n eq_refl). simpl.
    rewrite (IH vals); [reflexivity | simpl in Hlen; lia |].
    intros i m Hm. apply (Hget (S i) m Hm).
Qed.

End Assign.

Lemma NoDup_num_cols : NoDup num_cols.
Proof. repeat constructor; simpl; intuition discriminate. Qed.

Lemma num_cols_in_keys (cols : list string) (inp : RawInputs) (n : string) :
  In n num_cols -> In n (Dict.keys (raw_input cols inp)).
Proof.
  intros Hn. apply In_nth_error in Hn. destruct Hn as [i Hi].
  pose proof (get_numeric_slot cols inp i n Hi) as Hget.
  assert (Hlt : (i < List.length (numeric_values inp))%nat).
  { change (List.length (numeric_values inp)) with (List.length num_cols).
    apply nth_error_Some. congruence. }
  destruct (nth_error (numeric_values inp) i) as [v |] eqn:Hv.
  - eapply DictFacts.get_Some_key. eassumption.
  - apply nth_error_None in Hv. lia.
Qed.

(** ** Counting the hot slots of a family *)

Lemma at_most_one_hit (P : string * pyval -> bool) (d : Dict.t) (k0 : string) :
  NoDup (Dict.keys d) ->
  (forall kv, In kv d -> P kv = true -> fst kv = k0) ->
  (List.length (filter P d) <= 1)%nat.
Proof.
  induction d as [| kv d IH]; intros Hnd Hone; simpl.
  - lia.
  - inversion Hnd as [| ? ? Hout Hnd']; subst.
    assert (Htail : forall kv', In kv' d -> P kv' = true -> fst kv' = k0)
      by (intros kv' Hin; apply Hone; now right).
    destruct (P kv) eqn:Hkv; [| now apply IH].
    assert (Hhead : fst kv = k0) by (apply Hone; [now left | assumption]).
    destruct (filter P d) as [| kv' rest] eqn:Hf; [simpl; lia |].
    exfalso. assert (Hin : In kv' (filter P d)) by (rewrite Hf; now left).
    apply filter_In in Hin. destruct Hin as [Hin Hp].
    apply Hout. rewrite Hhead, <- (Htail kv' Hin Hp).
    now apply in_map.
Qed.

Lemma hot_slots_family (cols : list string) (inp : RawInputs)
      (fam cand : string) :
  (fam = "model_" /\ cand = model_col cols inp)
  \/ (fam = "transmission_" /\ cand = trans_col inp)
  \/ (fam = "fuelType_" /\ cand = fuel_col inp) ->
  (List.length (hot_slots fam (raw_input cols inp)) <= 1)%nat.
Proof.
  intros Hfam. unfold hot_slots.
  apply (at_most_one_hit _ _ cand); [apply NoDup_keys_raw_input |].
  intros [k v] Hin Hp. simpl in *.
  apply andb_prop in Hp. destruct Hp as [Hk Hv].
  apply DictFacts.In_get in Hin; [| apply NoDup_keys_raw_input].
  rewrite (get_family_slot cols inp fam cand k Hfam Hk) in Hin.
  destruct (py_in k cols); [| discriminate].
  destruct (String.eqb_spec cand k) as [-> | _]; [reflexivity |].
  inversion Hin; subst. discriminate.
Qed.

(** A slot of a family holds 1 exactly when it is the family's candidate
    column and the schema has it. *)
Lemma family_slot_hot_iff (cols : list string) (inp : RawInputs)
      (fam cand k : string) :
  (fam = "model_" /\ cand = model_col cols inp)
  \/ (fam = "transmission_" /\ cand = trans_col inp)
  \/ (fam = "fuelType_" /\ cand = fuel_col inp) ->
  in_family fam k = true ->
  (Dict.get (raw_input cols inp) k = Some (VInt 1)
   <-> k = cand /\ In k cols).
Proof.
  intros Hfam Hk.
  rewrite (get_family_slot cols inp fam cand k Hfam Hk), <- py_in_true.
  destruct (py_in k cols);
    [| split; [discriminate | intros [_ H]; discriminate]].
  destruct (String.eqb_spec cand k) as [-> | Hne].
  - tauto.
  - split; [discriminate | intros [-> _]; contradiction].
Qed.

(** ** Claims about the encoder *)

(** C2, as stated, fails: the column tried for a model is not a function of
    the selected value alone.  With a schema that has "model_ Focus" but no
    "model_Focus", the name the specification computes for Focus is absent
    from the schema, and yet the encoder activates "model_ Focus". *)
Lemma focus_name_depends_on_schema :
  spec_model_col Scenario.focus_request = "model_Focus"
  /\ ~ In "model_Focus" Scenario.spaced_schema
  /\ Dict.get (raw_input Scenario.spaced_schema Scenario.focus_request)
       "model_ Focus" = Some (VInt 1)
  /\ "model_ Focus" <> spec_model_col Scenario.focus_request.
Proof.
  repeat split; try reflexivity.
  - simpl. intuition discriminate.
  - discriminate.
Qed.

(** C2, amended: a slot of a categorical family holds 1 exactly when it is
    the family's candidate column and that column is in the schema.  The
    candidate is "transmission_<value>", "fuelType_<value>", and for the
    model "model_ <value>" (with the space), except that for the value
    "Focus" it is "model_Focus" when the schema has that name.  Given
    model "Focus" and a schema with "model_Focus", the vector has
    model_Focus = 1 and every other model_* slot 0. *)
Theorem one_hot_naming (cols : list string) (inp : RawInputs) :
  (forall k, in_family "model_" k = true ->
     (Dict.get (raw_input cols inp) k = Some (VInt 1)
      <-> k = model_col cols inp /\ In k cols))
  /\ (forall k, in_family "transmission_" k = true ->
     (Dict.get (raw_input cols inp) k = Some (VInt 1)
      <-> k = "transmission_" ++ selected_trans inp /\ In k cols))
  /\ (forall k, in_family "fuelType_" k = true ->
     (Dict.get (raw_input cols inp) k = Some (VInt 1)
      <-> k = "fuelType_" ++ selected_fuel inp /\ In k cols))
  /\ (selected_model inp <> "Focus" \/ ~ In "model_Focus" cols ->
      model_col cols inp = "model_ " ++ selected_model inp)
  /\ (selected_model inp = "Focus" -> In "model_Focus" cols ->
      model_col cols inp = "model_Focus"
      /\ Dict.get (raw_input cols inp) "model_Focus" = Some (VInt 1)
      /\ forall k, in_family "model_" k = true -> k <> "model_Focus" ->
           In k (Dict.keys (raw_input cols inp)) ->
           Dict.get (raw_input cols inp) k = Some (VInt 0)).
Proof.
  pose proof (family_slot_hot_iff cols inp) as Hiff.
  assert (Hfocus : selected_model inp = "Focus" -> In "model_Focus" cols ->
                   model_col cols inp = "model_Focus").
  { intros Hsel Hin. unfold model_col. apply py_in_true in Hin.
    now rewrite Hsel, Hin. }
  split; [| split; [| split; [| split]]].
  - intros k Hk. apply (Hiff "model_"); tauto.
  - intros k Hk. apply (Hiff "transmission_" (trans_col inp)); tauto.
  - intros k Hk. apply (Hiff "fuelType_" (fuel_col inp)); tauto.
  - intros Hgen.
    destruct (model_col_cases cols inp) as [[Hsel [Hin _]] | [_ Hcol]];
      [tauto | exact Hcol].
  - intros Hsel Hin. specialize (Hfocus Hsel Hin).
    split; [assumption |]. split.
    + apply (Hiff "model_" (model_col cols inp)); [tauto | reflexivity |].
      now rewrite Hfocus.
    + intros k Hk Hne Hkey.
      rewrite (get_family_slot cols inp "model_" (model_col cols inp) k)
        by tauto.
      destruct (py_in k cols) eqn:Hc.
      * rewrite Hfocus.
        destruct (String.eqb_spec "model_Focus" k);
          [congruence | reflexivity].
      * exfalso. revert Hkey. apply DictFacts.get_None.
        rewrite (get_family_slot cols inp "model_" (model_col cols inp) k)
          by tauto.
        now rewrite Hc.
Qed.

Lemma one_hot_naming_focus :
  selected_model Scenario.focus_request = "Focus"
  /\ In "model_Focus" Scenario.full_schema
  /\ Dict.get (raw_input Scenario.full_schema Scenario.focus_request)
       "model_Focus" = Some (VInt 1)
  /\ Dict.get (raw_input Scenario.full_schema Scenario.focus_request)
       "model_ Kuga" = Some (VInt 0).
Proof.
  assert (Hsel : selected_model Scenario.focus_request = "Focus")
    by reflexivity.
  assert (Hin : In "model_Focus" Scenario.full_schema) by (simpl; tauto).
  split; [exact Hsel |]. split; [exact Hin |].
  destruct (one_hot_naming Scenario.full_schema Scenario.focus_request)
    as [_ [_ [_ [_ H]]]].
  destruct (H Hsel Hin) as [_ [Hhot Hrest]].
  split; [exact Hhot |].
  apply Hrest; [reflexivity | discriminate | vm_compute; tauto].
Defined.

(** C3, as stated, fails: with a schema that has the five numeric names,
    the pre-scale vector of the form's Focus request holds 1, not 0, in
    the slot "model_Focus", which is none of the five numeric slots. *)
Lemma hot_slot_is_not_zero :
  (forall n, In n num_cols -> In n Scenario.full_schema)
  /\ ~ In "model_Focus" num_cols
  /\ Dict.get (raw_input Scenario.full_schema Scenario.focus_request)
       "model_Focus" = Some (VInt 1)
  /\ VInt 1 <> VInt 0.
Proof.
  split; [| split; [| split]].
  - simpl. intuition.
  - simpl. intuition discriminate.
  - reflexivity.
  - discriminate.
Qed.

(** C3, amended: given a schema with the five numeric names, the pre-scale
    vector has those five slots populated with the widget values, has no
    slot outside the schema, and every other slot is 0, except the slots
    activated by the three categorical inputs, which are 1; right after the
    numeric assignments (before the categorical branches) every other slot
    is exactly 0. *)
Theorem numeric_passthrough (cols : list string) (inp : RawInputs) :
  (forall n, In n num_cols -> In n cols) ->
  DataFrame.getitem (raw_input cols inp) num_cols = inr (numeric_values inp)
  /\ Dict.get (raw_input cols inp) "year" = Some (VInt (year inp))
  /\ Dict.get (raw_input cols inp) "mileage" = Some (VInt (mileage inp))
  /\ Dict.get (raw_input cols inp) "tax" = Some (VInt (tax inp))
  /\ Dict.get (raw_input cols inp) "mpg" = Some (VFloat (mpg inp))
  /\ Dict.get (raw_input cols inp) "engineSize"
     = Some (VFloat (engineSize inp))
  /\ Dict.keys (raw_input cols inp) = Dict.keys (init_columns cols)
  /\ (forall k, ~ In k num_cols -> In k cols ->
        Dict.get (raw_input_numeric cols inp) k = Some (VInt 0))
  /\ (forall k, ~ In k num_cols -> In k cols ->
        Dict.get (raw_input cols inp) k
        = Some (VInt (if String.eqb (fuel_col inp) k
                         || String.eqb (trans_col inp) k
                         || String.eqb (model_col cols inp) k
                      then 1 else 0)))
  /\ (forall k, ~ In k num_cols -> ~ In k cols ->
        Dict.get (raw_input cols inp) k = None).
Proof.
  intros Hnum.
  split; [apply get_numeric_slots |].
  split; [apply (get_numeric_slot cols inp 0); reflexivity |].
  split; [apply (get_numeric_slot cols inp 1); reflexivity |].
  split; [apply (get_numeric_slot cols inp 2); reflexivity |].
  split; [apply (get_numeric_slot cols inp 3); reflexivity |].
  split; [apply (get_numeric_slot cols inp 4); reflexivity |].
  split.
  { rewrite keys_raw_input, keys_raw_input_numeric.
    rewrite <- (app_nil_r (Dict.keys (init_columns cols))) at 2. f_equal.
    assert (Hall : forall n, In n num_cols -> py_in n cols = true)
      by (intros n Hn; apply py_in_true; auto).
    simpl. rewrite !Hall by (simpl; tauto). reflexivity. }
  split; [| split]; intros k Hk Hc.
  - rewrite get_other_slot_numeric by assumption.
    apply py_in_true in Hc. now rewrite Hc.
  - rewrite get_other_slot by assumption.
    apply py_in_true in Hc. now rewrite Hc.
  - rewrite get_other_slot by assumption.
    apply py_in_false in Hc. now rewrite Hc.
Qed.

Lemma numeric_passthrough_focus :
  (forall n, In n num_cols -> In n Scenario.full_schema)
  /\ Dict.get (raw_input Scenario.full_schema Scenario.focus_request) "year"
     = Some (VInt 2018)
  /\ Dict.get (raw_input Scenario.full_schema Scenario.focus_request)
       "fuelType_Diesel" = Some (VInt 0)
  /\ Dict.get (raw_input Scenario.full_schema Scenario.focus_request)
       "fuelType_Petrol" = Some (VInt 1).
Proof.
  assert (Hnum : forall n, In n num_cols -> In n Scenario.full_schema)
    by (simpl; intuition).
  split; [exact Hnum |].
  destruct (numeric_passthrough Scenario.full_schema Scenario.focus_request
              Hnum) as [_ [Hyear [_ [_ [_ [_ [_ [_ [Hother _]]]]]]]]].
  split; [exact Hyear |]. split.
  - apply (Hother "fuelType_Diesel");
      simpl; [intuition discriminate | tauto].
  - apply (Hother "fuelType_Petrol");
      simpl; [intuition discriminate | tauto].
Defined.

(** C4, as stated, fails: for model "Focus" the name the specification
    computes is "model_Focus"; with a schema that lacks it but has
    "model_ Focus" the encoding is not a no-op: the model branch changes
    the dict and the slot "model_ Focus" of the model family holds 1. *)
Lemma unmatched_focus_is_not_noop :
  spec_model_col Scenario.focus_request = "model_Focus"
  /\ ~ In (spec_model_col Scenario.focus_request) Scenario.spaced_schema
  /\ in_family "model_" "model_ Focus" = true
  /\ Dict.get (raw_input Scenario.spaced_schema Scenario.focus_request)
       "model_ Focus" = Some (VInt 1)
  /\ set_model Scenario.spaced_schema Scenario.focus_request
       (raw_input_numeric Scenario.spaced_schema Scenario.focus_request)
     <> raw_input_numeric Scenario.spaced_schema Scenario.focus_request.
Proof.
  split; [reflexivity |]. split; [simpl; intuition discriminate |].
  split; [reflexivity |]. split; [reflexivity |].
  vm_compute. discriminate.
Qed.

(** C4, amended: when the column the code computes for a categorical input
    is not in the schema, the branch leaves the dict as it is, every slot
    of that family is 0, and nothing is raised: with a scaler and a model
    that answer, the request ends in a price.  The column computed is
    "transmission_<value>", "fuelType_<value>" and, for the model,
    "model_Focus" for Focus when the schema has it and "model_ <value>"
    otherwise; in the specification's terms: the name it computes is
    absent and, for Focus, "model_ Focus" is absent too. *)
Theorem unmatched_category_is_noop (cols : list string) (inp : RawInputs) :
  (~ In (model_col cols inp) cols ->
     (forall d, set_model cols inp d = d)
     /\ forall k v, in_family "model_" k = true ->
          Dict.get (raw_input cols inp) k = Some v -> v = VInt 0)
  /\ (~ In ("transmission_" ++ selected_trans inp) cols ->
     (forall d, set_trans cols inp d = d)
     /\ forall k v, in_family "transmission_" k = true ->
          Dict.get (raw_input cols inp) k = Some v -> v = VInt 0)
  /\ (~ In ("fuelType_" ++ selected_fuel inp) cols ->
     (forall d, set_fuel cols inp d = d)
     /\ forall k v, in_family "fuelType_" k = true ->
          Dict.get (raw_input cols inp) k = Some v -> v = VInt 0)
  /\ (forall s ys p out,
        columns s = cols ->
        scaler_transform s (numeric_values inp) = inr ys ->
        List.length ys = 5%nat ->
        model_predict s (DataFrame.assign (raw_input cols inp) num_cols ys)
        = inr (p :: out) ->
        on_click inp s = (PriceDisplay p, s))
  /\ (~ In (spec_model_col inp) cols ->
      selected_model inp <> "Focus" \/ ~ In "model_ Focus" cols ->
      (forall d, set_model cols inp d = d)
      /\ forall k v, in_family "model_" k = true ->
           Dict.get (raw_input cols inp) k = Some v -> v = VInt 0).
Proof.
  assert (Hzero : forall fam cand k v,
    (fam = "model_" /\ cand = model_col cols inp)
    \/ (fam = "transmission_" /\ cand = trans_col inp)
    \/ (fam = "fuelType_" /\ cand = fuel_col inp) ->
    ~ In cand cols -> in_family fam k = true ->
    Dict.get (raw_input cols inp) k = Some v -> v = VInt 0).
  { intros fam cand k v Hfam Hout Hk Hget.
    rewrite (get_family_slot cols inp fam cand k Hfam Hk) in Hget.
    destruct (py_in k cols) eqn:Hc; [| discriminate].
    destruct (String.eqb_spec cand k) as [-> | _].
    - apply py_in_true in Hc. contradiction.
    - now inversion Hget. }
  assert (Hnoop : ~ In (model_col cols inp) cols ->
     (forall d, set_model cols inp d = d)
     /\ forall k v, in_family "model_" k = true ->
          Dict.get (raw_input cols inp) k = Some v -> v = VInt 0).
  { intros Hout. split.
    - intros d. rewrite set_model_col.
      apply py_in_false in Hout. now rewrite Hout.
    - intros k v. apply (Hzero "model_" (model_col cols inp)); tauto. }
  split; [| split; [| split; [| split]]].
  - exact Hnoop.
  - intros Hout. split.
    + intros d. unfold set_trans.
      apply py_in_false in Hout. now rewrite Hout.
    + intros k v. apply (Hzero "transmission_" (trans_col inp)); tauto.
  - intros Hout. split.
    + intros d. unfold set_fuel.
      apply py_in_false in Hout. now rewrite Hout.
    + intros k v. apply (Hzero "fuelType_" (fuel_col inp)); tauto.
  - intros s ys p out Hcols Hscale Hlen Hmodel.
    pose proof (on_click_state inp s) as Hstate.
    unfold on_click in *. rewrite try_body_eq, scale_raw_input, Hcols, Hscale.
    unfold DataFrame.setitem. rewrite Hlen. simpl Nat.eqb. cbv iota.
    now rewrite Hmodel.
  - intros Hspec Hfocus. apply Hnoop. unfold spec_model_col in Hspec.
    destruct (model_col_cases cols inp) as [[Hsel [Hin Hcol]] | [_ Hcol]].
    + exfalso. apply Hspec. now rewrite Hsel.
    + rewrite Hcol.
      destruct (String.eqb_spec (selected_model inp) "Focus") as [Hsel | _];
        [| exact Hspec].
      rewrite Hsel. destruct Hfocus as [Hne | Hout]; [contradiction | exact Hout].
Qed.

Lemma unmatched_category_kuga :
  ~ In (model_col Scenario.bare_schema Scenario.kuga_request)
      Scenario.bare_schema
  /\ Dict.get (raw_input Scenario.bare_schema Scenario.kuga_request)
       "model_ Fiesta" = Some (VInt 0)
  /\ on_click Scenario.kuga_request (Scenario.mock Scenario.bare_schema)
     = (PriceDisplay (VInt 64339), Scenario.mock Scenario.bare_schema).
Proof.
  assert (Hout : ~ In (model_col Scenario.bare_schema Scenario.kuga_request)
                      Scenario.bare_schema)
    by (vm_compute; intuition discriminate).
  split; [exact Hout |].
  destruct (unmatched_category_is_noop Scenario.bare_schema
              Scenario.kuga_request) as [Hmodel [_ [_ [Hrun _]]]].
  destruct (Hmodel Hout) as [_ Hzero].
  split.
  - assert (Hget : exists v,
      Dict.get (raw_input Scenario.bare_schema Scenario.kuga_request)
        "model_ Fiesta" = Some v) by (eexists; reflexivity).
    destruct Hget as [v Hv]. rewrite Hv. f_equal.
    apply (Hzero "model_ Fiesta"); [reflexivity | exact Hv].
  - apply (Hrun (Scenario.mock Scenario.bare_schema)
             (map Scenario.affine (numeric_values Scenario.kuga_request))
             (VInt 64339) []); reflexivity.
Defined.

(** C6: for every request and every schema, each categorical family of the
    encoded vector has at most one slot equal to 1 (zero or one), and every
    slot holds one of the five widget values, 0 or 1. *)
Theorem one_hot_family_invariant (cols : list string) (inp : RawInputs) :
  Forall (fun fam =>
            (List.length (hot_slots fam (raw_input cols inp)) <= 1)%nat)
    families
  /\ Forall (fun kv =>
               In (snd kv) (numeric_values inp ++ [VInt 0; VInt 1])%list)
       (raw_input cols inp).
Proof.
  split.
  - constructor; [| constructor; [| constructor; [| constructor]]].
    + apply (hot_slots_family cols inp "model_" (model_col cols inp)). tauto.
    + apply (hot_slots_family cols inp "transmission_" (trans_col inp)). tauto.
    + apply (hot_slots_family cols inp "fuelType_" (fuel_col inp)). tauto.
  - apply Forall_forall. intros [k v] Hin. simpl.
    apply (slot_is_widget_or_bit cols inp k).
    apply DictFacts.In_get; [apply NoDup_keys_raw_input | assumption].
Qed.

(** C10: for model "Focus", when the schema has no "model_Focus" but has
    "model_ Focus", the encoder sets the slot "model_ Focus" to 1 (and no
    "model_Focus" slot exists); the slot "model_Focus" is set to 1 only
    when the model is "Focus" and the schema has "model_Focus". *)
Theorem focus_fallback (cols : list string) (inp : RawInputs) :
  (selected_model inp = "Focus" ->
   ~ In "model_Focus" cols -> In "model_ Focus" cols ->
   Dict.get (raw_input cols inp) "model_ Focus" = Some (VInt 1)
   /\ Dict.get (raw_input cols inp) "model_Focus" = None)
  /\ (Dict.get (raw_input cols inp) "model_Focus" = Some (VInt 1) ->
      selected_model inp = "Focus" /\ In "model_Focus" cols).
Proof.
  pose proof (fun k => family_slot_hot_iff cols inp "model_"
                        (model_col cols inp) k
                        (or_introl (conj eq_refl eq_refl))) as Hmodel.
  split.
  - intros Hsel Hout Hin.
    assert (Hcol : model_col cols inp = "model_ Focus").
    { unfold model_col. apply py_in_false in Hout.
      now rewrite Hsel, Hout. }
    split.
    + apply Hmodel; [reflexivity | now rewrite Hcol].
    + apply DictFacts.get_None. rewrite keys_raw_input, keys_raw_input_numeric.
      intros Hk. apply in_app_or in Hk. destruct Hk as [Hk | Hk].
      * apply Hout. now apply (in_keys_init cols).
      * apply filter_In in Hk. destruct Hk as [Hk _].
        simpl in Hk. intuition discriminate.
  - intros Hget. apply Hmodel in Hget; [| reflexivity].
    destruct Hget as [Hcol Hin]. split; [| assumption].
    destruct (model_col_cases cols inp) as [[Hsel _] | [_ Hgen]];
      [assumption |].
    rewrite Hgen in Hcol. discriminate.
Qed.

Lemma focus_fallback_spaced :
  selected_model Scenario.focus_request = "Focus"
  /\ ~ In "model_Focus" Scenario.spaced_schema
  /\ In "model_ Focus" Scenario.spaced_schema
  /\ Dict.get (raw_input Scenario.spaced_schema Scenario.focus_request)
       "model_ Focus" = Some (VInt 1).
Proof.
  assert (Hout : ~ In "model_Focus" Scenario.spaced_schema)
    by (simpl; intuition discriminate).
  assert (Hin : In "model_ Focus" Scenario.spaced_schema) by (simpl; tauto).
  split; [reflexivity |]. split; [exact Hout |]. split; [exact Hin |].
  destruct (focus_fallback Scenario.spaced_schema Scenario.focus_request)
    as [H _].
  exact (proj1 (H eq_refl Hout Hin)).
Defined.

(** ** Claims about the whole request *)

(** One press of the button, stage by stage: the encoder contributes no
    failure of its own; what is shown is decided by the scaler, the column
    assignment, the model and the indexing of its output. *)
Lemma on_click_eq (inp : RawInputs) (s : artifacts) :
  on_click inp s
  = (report
       match scaler_transform s (numeric_values inp) with
       | inl e => inl e
       | inr ys =>
           match DataFrame.setitem (raw_input (columns s) inp) num_cols ys with
           | inl e => inl e
           | inr input_df =>
               match model_predict s input_df with
               | inl e => inl e
               | inr out => getitem0 out
               end
           end
       end, s).
Proof.
  unfold on_click. rewrite try_body_eq, scale_raw_input.
  destruct (scaler_transform s (numeric_values inp)) as [e | ys];
    [reflexivity |].
  destruct (DataFrame.setitem _ num_cols ys) as [e | df]; [reflexivity |].
  destruct (model_predict s df); reflexivity.
Qed.

Lemma setitem_num_cols (df : DataFrame.t) (ys : list pyval) :
  List.length ys = 5%nat ->
  DataFrame.setitem df num_cols ys = inr (DataFrame.assign df num_cols ys).
Proof. intros Hlen. unfold DataFrame.setitem. now rewrite Hlen. Qed.

Lemma setitem_inr (df df' : DataFrame.t) (ys : list pyval) :
  DataFrame.setitem df num_cols ys = inr df' ->
  List.length ys = 5%nat /\ df' = DataFrame.assign df num_cols ys.
Proof.
  unfold DataFrame.setitem. intros H.
  destruct (Nat.eqb_spec (List.length num_cols) (List.length ys)) as [E | E];
    [| discriminate].
  inversion H. split; [now rewrite <- E | reflexivity].
Qed.

(** C1, as stated, fails: with a schema that has no "year" column the
    request neither fails with a schema error nor fails at all; with a
    scaler and a model that answer it shows a price, and the encoded
    vector has the key "year", a name outside the schema. *)
Lemma schema_drift_is_silent :
  In "year" num_cols
  /\ ~ In "year" Scenario.drifted_schema
  /\ In "year"
       (Dict.keys (raw_input Scenario.drifted_schema Scenario.focus_request))
  /\ fst (on_click Scenario.focus_request
            (Scenario.mock Scenario.drifted_schema))
     = PriceDisplay (VInt 64342).
Proof.
  split; [simpl; tauto |]. split; [simpl; intuition discriminate |].
  split; [vm_compute; tauto | reflexivity].
Qed.

(** C1, amended: when one of the five numeric names is absent from the
    schema, nothing is raised by the encoder: the assignment adds the name
    as a new key, after the schema's names, holding the widget value, so
    the vector has a name outside the schema; the scaler still receives
    all five values, and what the request shows is decided by the scaler
    and the model alone, any failure going through the handler's generic
    error message. *)
Theorem absent_numeric_name_is_added (cols : list string) (inp : RawInputs)
        (i : nat) (n : string) :
  nth_error num_cols i = Some n -> ~ In n cols ->
  In n (Dict.keys (raw_input cols inp))
  /\ Dict.get (raw_input cols inp) n = nth_error (numeric_values inp) i
  /\ Dict.keys (raw_input cols inp)
     = (Dict.keys (init_columns cols)
        ++ filter (fun m => negb (py_in m cols)) num_cols)%list
  /\ DataFrame.getitem (raw_input cols inp) num_cols
     = inr (numeric_values inp)
  /\ forall s, columns s = cols ->
       on_click inp s
       = (report
            match scaler_transform s (numeric_values inp) with
            | inl e => inl e
            | inr ys =>
                match DataFrame.setitem (raw_input cols inp) num_cols ys with
                | inl e => inl e
                | inr input_df =>
                    match model_predict s input_df with
                    | inl e => inl e
                    | inr out => getitem0 out
                    end
                end
            end, s).
Proof.
  intros Hn Hout.
  split; [apply num_cols_in_keys; eapply nth_error_In; eassumption |].
  split; [now apply get_numeric_slot |].
  split; [now rewrite keys_raw_input, keys_raw_input_numeric |].
  split; [apply get_numeric_slots |].
  intros s <-. apply on_click_eq.
Qed.

Lemma absent_year_is_added :
  nth_error num_cols 0 = Some "year"
  /\ ~ In "year" Scenario.drifted_schema
  /\ In "year"
       (Dict.keys (raw_input Scenario.drifted_schema Scenario.focus_request))
  /\ Dict.get (raw_input Scenario.drifted_schema Scenario.focus_request)
       "year" = Some (VInt 2018).
Proof.
  assert (Hout : ~ In "year" Scenario.drifted_schema)
    by (simpl; intuition discriminate).
  split; [reflexivity |]. split; [exact Hout |].
  destruct (absent_numeric_name_is_added Scenario.drifted_schema
              Scenario.focus_request 0 "year" eq_refl Hout)
    as [Hkey [Hget _]].
  split; [exact Hkey | exact Hget].
Defined.

(** C5: when the scaler answers with five values, the assignment of line
    252 succeeds; afterwards the five numeric slots hold, in the order
    year, mileage, tax, mpg, engineSize, what the scaler returned for the
    five pre-scale values taken in that order, every other slot is what it
    was before (0 or 1), and the columns are the same. *)
Theorem scaling_frame (inp : RawInputs) (s : artifacts) (ys : list pyval) :
  scaler_transform s (numeric_values inp) = inr ys ->
  List.length ys = 5%nat ->
  exists input_df,
    scale (raw_input (columns s) inp) s = (inr input_df, s)
    /\ DataFrame.getitem (raw_input (columns s) inp) num_cols
       = inr (numeric_values inp)
    /\ DataFrame.getitem input_df num_cols = inr ys
    /\ (forall i n, nth_error num_cols i = Some n ->
          Dict.get input_df n = nth_error ys i)
    /\ (forall k, ~ In k num_cols ->
          Dict.get input_df k = Dict.get (raw_input (columns s) inp) k)
    /\ (forall k v, ~ In k num_cols -> Dict.get input_df k = Some v ->
          v = VInt 0 \/ v = VInt 1)
    /\ Dict.keys input_df = Dict.keys (raw_input (columns s) inp).
Proof.
  intros Hscale Hlen.
  exists (DataFrame.assign (raw_input (columns s) inp) num_cols ys).
  assert (Hnth : forall i n, nth_error num_cols i = Some n ->
            Dict.get (DataFrame.assign (raw_input (columns s) inp) num_cols ys) n
            = nth_error ys i).
  { intros i n Hn. apply get_assign_nth;
      [apply NoDup_num_cols | now rewrite Hlen | assumption]. }
  split; [| split; [| split; [| split; [| split; [| split]]]]].
  - now rewrite scale_raw_input, Hscale, setitem_num_cols.
  - apply get_numeric_slots.
  - apply getitem_of_gets; [now rewrite Hlen | exact Hnth].
  - exact Hnth.
  - intros k Hk. now apply get_assign_other.
  - intros k v Hk Hget. rewrite get_assign_other in Hget by assumption.
    rewrite get_other_slot in Hget by assumption.
    destruct (py_in k (columns s)); [| discriminate].
    inversion Hget. destruct (_ || _); tauto.
  - apply keys_assign. intros n Hn. now apply num_cols_in_keys.
Qed.

Lemma scaling_frame_focus :
  scaler_transform (Scenario.mock Scenario.full_schema)
    (numeric_values Scenario.focus_request)
  = inr [VInt 4037; VInt 60001; VInt 301;
         VFloat Scenario.f50_0; VFloat Scenario.f1_6]
  /\ exists input_df,
       scale (raw_input Scenario.full_schema Scenario.focus_request)
         (Scenario.mock Scenario.full_schema)
       = (inr input_df, Scenario.mock Scenario.full_schema)
       /\ Dict.get input_df "year" = Some (VInt 4037)
       /\ Dict.get input_df "model_Focus" = Some (VInt 1).
Proof.
  split; [reflexivity |].
  destruct (scaling_frame Scenario.focus_request
              (Scenario.mock Scenario.full_schema)
              [VInt 4037; VInt 60001; VInt 301;
               VFloat Scenario.f50_0; VFloat Scenario.f1_6]
              eq_refl eq_refl)
    as [df [Hrun [_ [_ [Hnum [Hframe _]]]]]].
  exists df. split; [exact Hrun |]. split.
  - exact (Hnum 0%nat "year" eq_refl).
  - rewrite Hframe; [reflexivity | simpl; intuition discriminate].
Defined.

Lemma scale_inr (inp : RawInputs) (s s' : artifacts) (input_df : DataFrame.t) :
  scale (raw_input (columns s) inp) s = (inr input_df, s') ->
  exists ys,
    scaler_transform s (numeric_values inp) = inr ys
    /\ List.length ys = 5%nat
    /\ input_df = DataFrame.assign (raw_input (columns s) inp) num_cols ys.
Proof.
  rewrite scale_raw_input.
  destruct (scaler_transform s (numeric_values inp)) as [e | ys];
    [discriminate |].
  intros H. inversion H as [[Hset Hs]]. apply setitem_inr in Hset.
  destruct Hset as [Hlen Hdf]. exists ys. subst. auto.
Qed.

(** C8, as stated, fails: what reaches the user does not carry the
    underlying error, only its text.  A scaler raising [ValueError] and a
    scaler raising [TypeError] with the same text end in the same
    message; no error object, typed or not, leaves the handler. *)
Lemma error_report_keeps_only_the_text :
  Scenario.value_error <> Scenario.type_error
  /\ scaler_transform
       (Scenario.failing_scaler Scenario.value_error Scenario.full_schema)
       (numeric_values Scenario.focus_request) = inl Scenario.value_error
  /\ scaler_transform
       (Scenario.failing_scaler Scenario.type_error Scenario.full_schema)
       (numeric_values Scenario.focus_request) = inl Scenario.type_error
  /\ fst (on_click Scenario.focus_request
            (Scenario.failing_scaler Scenario.value_error
               Scenario.full_schema))
     = StError "❌ Prediction Error: bad input"
  /\ fst (on_click Scenario.focus_request
            (Scenario.failing_scaler Scenario.type_error
               Scenario.full_schema))
     = StError "❌ Prediction Error: bad input".
Proof.
  split; [discriminate |]. repeat split.
Qed.

(** C8, amended: every exception raised while scaling (by the scaler or
    by the column assignment) or while predicting (by the model or by the
    indexing of its output) is caught by the handler and shown as the
    message "Prediction Error: " followed by the text of the exception;
    the press of the button still returns, the cached artifacts are as
    before, and later requests behave as if the failure had not
    happened. *)
Theorem inference_errors_are_reported (inp : RawInputs) (s : artifacts)
        (e : exn) :
  scaler_transform s (numeric_values inp) = inl e
  \/ (exists ys, scaler_transform s (numeric_values inp) = inr ys
        /\ DataFrame.setitem (raw_input (columns s) inp) num_cols ys = inl e)
  \/ (exists input_df,
        scale (raw_input (columns s) inp) s = (inr input_df, s)
        /\ model_predict s input_df = inl e)
  \/ (exists input_df out,
        scale (raw_input (columns s) inp) s = (inr input_df, s)
        /\ model_predict s input_df = inr out
        /\ getitem0 out = inl e) ->
  on_click inp s = (StError ("❌ Prediction Error: " ++ exn_str e), s)
  /\ forall inp', on_click inp' (snd (on_click inp s)) = on_click inp' s.
Proof.
  intros Hraise. split.
  - rewrite on_click_eq.
    destruct Hraise as [H | [[ys [H1 H2]] | [[df [H1 H2]] | [df [out [H1 [H2 H3]]]]]]].
    + now rewrite H.
    + now rewrite H1, H2.
    + apply scale_inr in H1. destruct H1 as [ys [Hs [Hlen ->]]].
      now rewrite Hs, setitem_num_cols, H2.
    + apply scale_inr in H1. destruct H1 as [ys [Hs [Hlen ->]]].
      now rewrite Hs, setitem_num_cols, H2, H3.
  - intros inp'. now rewrite on_click_state.
Qed.

Lemma failing_model_is_reported :
  (exists input_df,
     scale (raw_input Scenario.full_schema Scenario.focus_request)
       (Scenario.failing_model Scenario.value_error Scenario.full_schema)
     = (inr input_df,
        Scenario.failing_model Scenario.value_error Scenario.full_schema)
     /\ model_predict
          (Scenario.failing_model Scenario.value_error Scenario.full_schema)
          input_df = inl Scenario.value_error)
  /\ on_click Scenario.focus_request
       (Scenario.failing_model Scenario.value_error Scenario.full_schema)
     = (StError "❌ Prediction Error: bad input",
        Scenario.failing_model Scenario.value_error Scenario.full_schema).
Proof.
  assert (Hraise : exists input_df,
     scale (raw_input Scenario.full_schema Scenario.focus_request)
       (Scenario.failing_model Scenario.value_error Scenario.full_schema)
     = (inr input_df,
        Scenario.failing_model Scenario.value_error Scenario.full_schema)
     /\ model_predict
          (Scenario.failing_model Scenario.value_error Scenario.full_schema)
          input_df = inl Scenario.value_error).
  { eexists. split; reflexivity. }
  split; [exact Hraise |].
  exact (proj1 (inference_errors_are_reported Scenario.focus_request
                  (Scenario.failing_model Scenario.value_error
                     Scenario.full_schema)
                  Scenario.value_error
                  (or_intror (or_intror (or_introl Hraise))))).
Defined.

(** C9: the model is called once, on the encoded vector whose five numeric
    slots were replaced by the scaler's output, and the value shown is the
    first element of what the model returned: whenever scaling and the
    model succeed with a non-empty output the request shows that first
    element, and whenever a price is shown it arose in this way. *)
Theorem prediction_is_first_model_output (inp : RawInputs) (s : artifacts) :
  (forall input_df p out,
     scale (raw_input (columns s) inp) s = (inr input_df, s) ->
     model_predict s input_df = inr (p :: out) ->
     on_click inp s = (PriceDisplay p, s))
  /\ (forall p,
        fst (on_click inp s) = PriceDisplay p ->
        exists ys out,
          scaler_transform s (numeric_values inp) = inr ys
          /\ List.length ys = 5%nat
          /\ scale (raw_input (columns s) inp) s
             = (inr (DataFrame.assign (raw_input (columns s) inp)
                       num_cols ys), s)
          /\ model_predict s
               (DataFrame.assign (raw_input (columns s) inp) num_cols ys)
             = inr (p :: out)).
Proof.
  split.
  - intros df p out Hscale Hmodel.
    apply scale_inr in Hscale. destruct Hscale as [ys [Hs [Hlen ->]]].
    now rewrite on_click_eq, Hs, setitem_num_cols, Hmodel.
  - intros p Hp. rewrite on_click_eq in Hp. unfold fst, report in Hp.
    destruct (scaler_transform s (numeric_values inp)) as [e | ys] eqn:Hs;
      [discriminate |].
    destruct (DataFrame.setitem (raw_input (columns s) inp) num_cols ys)
      as [e | df] eqn:Hset; [discriminate |].
    apply setitem_inr in Hset. destruct Hset as [Hlen ->].
    destruct (model_predict s _) as [e | out] eqn:Hmodel; [discriminate |].
    destruct out as [| p' out]; [discriminate |].
    unfold getitem0 in Hp. injection Hp as ->.
    exists ys, out.
    rewrite scale_raw_input, Hs, setitem_num_cols by assumption. auto.
Qed.

Lemma end_to_end_focus :
  scale (raw_input Scenario.full_schema Scenario.focus_request)
    (Scenario.mock Scenario.full_schema)
  = (inr (DataFrame.assign
            (raw_input Scenario.full_schema Scenario.focus_request)
            num_cols
            [VInt 4037; VInt 60001; VInt 301;
             VFloat Scenario.f50_0; VFloat Scenario.f1_6]),
     Scenario.mock Scenario.full_schema)
  /\ on_click Scenario.focus_request (Scenario.mock Scenario.full_schema)
     = (PriceDisplay (VInt 64342), Scenario.mock Scenario.full_schema).
Proof.
  assert (Hscale :
    scale (raw_input Scenario.full_schema Scenario.focus_request)
      (Scenario.mock Scenario.full_schema)
    = (inr (DataFrame.assign
              (raw_input Scenario.full_schema Scenario.focus_request)
              num_cols
              [VInt 4037; VInt 60001; VInt 301;
               VFloat Scenario.f50_0; VFloat Scenario.f1_6]),
       Scenario.mock Scenario.full_schema)) by reflexivity.
  split; [exact Hscale |].
  exact (proj1 (prediction_is_first_model_output Scenario.focus_request
                  (Scenario.mock Scenario.full_schema))
           _ (VInt 64342) [] Hscale eq_refl).
Defined.

(** * The page around the prediction *)

Lemma float_gt_int_mono (f : spec_float) (a b : Z) :
  (b <= a)%Z -> float_gt_int f a = true -> float_gt_int f b = true.
Proof.
  intros Hle. destruct f as [s | s | | s m e]; simpl.
  - rewrite !Z.gtb_ltb, !Z.ltb_lt. lia.
  - trivial.
  - trivial.
  - destruct (Z.leb_spec 0 e) as [He | He]; rewrite !Z.gtb_ltb, !Z.ltb_lt.
    + lia.
    + assert (Hpow : (0 < 2 ^ (- e))%Z) by (apply Z.pow_pos_nonneg; lia).
      pose proof (Z.mul_le_mono_nonneg_r b a (2 ^ (- e))%Z) as Hmul. lia.
Qed.

Lemma In_factors (a m : Z) (g : spec_float) (f x : string) :
  In x (factors a m g f)
  <-> ((a <? 5)%Z = true /\ x = "• Recent model year")
      \/ ((m <? 50000)%Z = true /\ x = "• Low mileage")
      \/ (float_gt_int g 40 = true /\ x = "• Fuel efficient")
      \/ (py_in f ["Electric"; "Hybrid"] = true /\ x = "• Eco-friendly").
Proof.
  unfold factors, append_if.
  destruct (a <? 5)%Z, (m <? 50000)%Z, (float_gt_int g 40),
    (py_in f ["Electric"; "Hybrid"]); simpl;
    intuition (try discriminate; try congruence).
Qed.

Lemma In_considerations (a m t : Z) (x : string) :
  In x (considerations a m t)
  <-> ((a >? 10)%Z = true /\ x = "• Vehicle age affects value")
      \/ ((m >? 100000)%Z = true /\ x = "• High mileage impacts price")
      \/ ((t >? 300)%Z = true /\ x = "• Higher tax bracket").
Proof.
  unfold considerations, append_if.
  destruct (a >? 10)%Z, (m >? 100000)%Z, (t >? 300)%Z; simpl;
    intuition (try discriminate; try congruence).
Qed.

(** X1: for a year of the slider (1990-2025) the car age is between 0 and
    35, and the age badge is the "new" one exactly for 2023-2025, the
    "ok" one exactly for 2019-2022 and the "old" one exactly up to 2018. *)
Theorem age_badge_by_year (y : Z) :
  (1990 <= y <= 2025)%Z ->
  (0 <= car_age y <= 35)%Z
  /\ (age_emoji (car_age y) = "🆕" <-> (2023 <= y)%Z)
  /\ (age_emoji (car_age y) = "👌" <-> (2019 <= y <= 2022)%Z)
  /\ (age_emoji (car_age y) = "👴" <-> (y <= 2018)%Z).
Proof.
  intros Hy. unfold car_age, age_emoji.
  split; [lia |].
  destruct (Z.ltb_spec (2025 - y) 3); [| destruct (Z.ltb_spec (2025 - y) 7)];
    repeat split; intros; try discriminate; try reflexivity; lia.
Qed.

Lemma age_badge_default :
  (1990 <= 2018 <= 2025)%Z
  /\ car_age 2018 = 7%Z
  /\ age_emoji (car_age 2018) = "👴".
Proof.
  assert (Hy : (1990 <= 2018 <= 2025)%Z) by lia.
  split; [exact Hy |]. split; [reflexivity |].
  destruct (age_badge_by_year 2018 Hy) as [_ [_ [_ Hold]]].
  apply Hold. lia.
Defined.

(** X2: when the market position shown is "Premium", the boosting
    factors list both "Recent model year" and "Low mileage", and the
    considerations list neither the age nor the mileage warning. *)
Theorem premium_position_is_consistent (inp : RawInputs) :
  value_indicator (car_age (year inp)) (mileage inp) = "💎 Premium" ->
  In "• Recent model year"
    (factors (car_age (year inp)) (mileage inp) (mpg inp) (selected_fuel inp))
  /\ In "• Low mileage"
       (factors (car_age (year inp)) (mileage inp) (mpg inp)
          (selected_fuel inp))
  /\ ~ In "• Vehicle age affects value"
         (considerations (car_age (year inp)) (mileage inp) (tax inp))
  /\ ~ In "• High mileage impacts price"
         (considerations (car_age (year inp)) (mileage inp) (tax inp)).
Proof.
  unfold value_indicator. rewrite !In_factors, !In_considerations.
  set (a := car_age (year inp)). set (m := mileage inp).
  destruct (Z.ltb_spec a 3) as [Ha | Ha];
    destruct (Z.ltb_spec m 30000) as [Hm | Hm]; simpl;
    try (destruct (_ && _); discriminate).
  intros _.
  assert (H5 : (a <? 5)%Z = true) by (apply Z.ltb_lt; lia).
  assert (H50 : (m <? 50000)%Z = true) by (apply Z.ltb_lt; lia).
  assert (H10 : (a >? 10)%Z = false)
    by (rewrite Z.gtb_ltb; apply Z.ltb_ge; lia).
  assert (H100 : (m >? 100000)%Z = false)
    by (rewrite Z.gtb_ltb; apply Z.ltb_ge; lia).
  rewrite H5, H50, H10, H100.
  repeat split; try tauto; intuition discriminate.
Qed.

Lemma premium_position_example :
  value_indicator
    (car_age (year (mk_inputs 2024 12000 150 Scenario.f50_0 Scenario.f1_6
                      "Puma" "Manual" "Petrol"))) 12000 = "💎 Premium"
  /\ In "• Low mileage"
       (factors (car_age 2024) 12000 Scenario.f50_0 "Petrol").
Proof.
  split; [reflexivity |].
  exact (proj1 (proj2 (premium_position_is_consistent
                         (mk_inputs 2024 12000 150 Scenario.f50_0
                            Scenario.f1_6 "Puma" "Manual" "Petrol")
                         eq_refl))).
Defined.

(** X3: the two insight columns never contradict each other: "Recent
    model year" is never listed together with "Vehicle age affects value",
    nor "Low mileage" together with "High mileage impacts price". *)
Theorem insights_do_not_contradict (a m t : Z) (g : spec_float) (f : string) :
  ~ (In "• Recent model year" (factors a m g f)
     /\ In "• Vehicle age affects value" (considerations a m t))
  /\ ~ (In "• Low mileage" (factors a m g f)
        /\ In "• High mileage impacts price" (considerations a m t)).
Proof.
  rewrite !In_factors, !In_considerations. rewrite !Z.gtb_ltb, !Z.ltb_lt.
  split; intros [H1 H2];
    destruct H1 as [[? ?] | [[? ?] | [[? ?] | [? ?]]]]; try discriminate;
    destruct H2 as [[? ?] | [[? ?] | [? ?]]]; try discriminate; lia.
Qed.

(** X4: the mileage badge agrees with the insight columns: it reads "Low"
    exactly when "Low mileage" is a listed factor, and "High" exactly
    when "High mileage impacts price" is a listed consideration. *)
Theorem mileage_badge_matches_insights (a m t : Z) (g : spec_float)
        (f : string) :
  (mileage_delta m = "Low" <-> In "• Low mileage" (factors a m g f))
  /\ (mileage_delta m = "High"
      <-> In "• High mileage impacts price" (considerations a m t)).
Proof.
  rewrite In_factors, In_considerations. unfold mileage_delta.
  destruct (Z.ltb_spec m 50000) as [Hlow | Hlow].
  - assert (Hhigh : (m >? 100000)%Z = false)
      by (rewrite Z.gtb_ltb; apply Z.ltb_ge; lia).
    rewrite Hhigh. split; split; intros; try discriminate; try tauto;
      intuition discriminate.
  - destruct (m >? 100000)%Z; split; split; intros;
      try discriminate; try tauto; intuition discriminate.
Qed.

(** X5: each insight column always writes something: between one and four
    lines on the left, between one and three on the right; the right
    column writes "Great overall condition!" exactly when the car is at
    most 10 years old, has at most 100000 miles and at most 300 of tax. *)
Theorem insight_columns_never_empty (inp : RawInputs) :
  (1 <= List.length (factors_column inp) <= 4)%nat
  /\ (1 <= List.length (considerations_column inp) <= 3)%nat
  /\ (In (st_write "• Great overall condition!") (considerations_column inp)
      <-> (car_age (year inp) <= 10 /\ mileage inp <= 100000
           /\ tax inp <= 300)%Z).
Proof.
  unfold factors_column, considerations_column, factors, considerations,
    append_if, write_all.
  split; [| split].
  - destruct (_ <? 5)%Z, (_ <? 50000)%Z, (float_gt_int _ 40), (py_in _ _);
      simpl; lia.
  - destruct (_ >? 10)%Z, (_ >? 100000)%Z, (_ >? 300)%Z; simpl; lia.
  - rewrite !Z.gtb_ltb.
    destruct (Z.ltb_spec 10 (car_age (year inp)));
      destruct (Z.ltb_spec 100000 (mileage inp));
      destruct (Z.ltb_spec 300 (tax inp)); simpl;
      split; intros; try lia; try tauto;
      repeat match goal with
             | H : _ \/ _ |- _ => destruct H
             | H : st_write _ = st_write _ |- _ => discriminate H
             | H : False |- _ => contradiction
             end.
Qed.

(** X6: the efficiency badge agrees with the other efficiency labels: an
    "Excellent" badge always comes with the factor "Fuel efficient", a
    "Poor" badge never does, and for a fuel that is neither Electric nor
    Hybrid the environmental score is the "Good" one exactly when the
    badge is "Excellent". *)
Theorem efficiency_labels_agree (a m : Z) (g : spec_float) (f : string) :
  (efficiency_delta g = "Excellent" -> In "• Fuel efficient" (factors a m g f))
  /\ (efficiency_delta g = "Poor" -> ~ In "• Fuel efficient" (factors a m g f))
  /\ (f <> "Electric" -> f <> "Hybrid" ->
      (env_score f g = "🌿 Good" <-> efficiency_delta g = "Excellent")).
Proof.
  rewrite In_factors. unfold efficiency_delta, env_score.
  pose proof (float_gt_int_mono g 50 40) as H5040.
  pose proof (float_gt_int_mono g 40 30) as H4030.
  destruct (float_gt_int g 50) eqn:G50; [| destruct (float_gt_int g 30) eqn:G30].
  - rewrite H5040 by (lia || reflexivity).
    split; [tauto |]. split; [discriminate |].
    intros Hne Hnh.
    destruct (String.eqb_spec f "Electric"); [contradiction |].
    destruct (String.eqb_spec f "Hybrid"); [contradiction |]. tauto.
  - split; [discriminate |]. split; [discriminate |].
    intros Hne Hnh.
    destruct (String.eqb_spec f "Electric"); [contradiction |].
    destruct (String.eqb_spec f "Hybrid"); [contradiction |].
    split; discriminate.
  - split; [discriminate |]. split.
    + intros _ Hin.
      destruct (float_gt_int g 40) eqn:G40.
      * assert (false = true) by (apply H4030; [lia | reflexivity]).
        discriminate.
      * intuition discriminate.
    + intros Hne Hnh.
      destruct (String.eqb_spec f "Electric"); [contradiction |].
      destruct (String.eqb_spec f "Hybrid"); [contradiction |].
      split; discriminate.
Qed.

Lemma efficiency_labels_example :
  efficiency_delta (S754_finite false 7881299347898368 (-47)) = "Excellent"
  /\ In "• Fuel efficient"
       (factors 7 30000 (S754_finite false 7881299347898368 (-47)) "Petrol").
Proof.
  split; [reflexivity |].
  exact (proj1 (efficiency_labels_agree 7 30000
                  (S754_finite false 7881299347898368 (-47)) "Petrol")
           eq_refl).
Defined.

(** X7: the factor "Eco-friendly" is listed exactly when the
    environmental score shown is the Electric or the Hybrid one. *)
Theorem eco_factor_matches_score (a m : Z) (g : spec_float) (f : string) :
  In "• Eco-friendly" (factors a m g f)
  <-> env_score f g = "🌱 Excellent" \/ env_score f g = "♻️ Good".
Proof.
  rewrite In_factors. unfold env_score, py_in. simpl existsb.
  destruct (String.eqb f "Electric"), (String.eqb f "Hybrid"),
    (float_gt_int g 50); simpl;
    intuition (try discriminate; try congruence).
Qed.

(** X8: the kind of box always matches the price category: a green box
    with "Premium Vehicle" exactly above 30000, a blue one with "Mid-Range
    Vehicle" above 15000 up to 30000, a yellow one with "Budget-Friendly
    Vehicle" otherwise; a prediction that is not a number, or minus
    infinity, falls in the last class. *)
Theorem category_box_matches_price (p : pyval) :
  (py_gt_int p 30000 = true ->
   category_box p = st_success "Category: 🏆 Premium Vehicle")
  /\ (py_gt_int p 30000 = false -> py_gt_int p 15000 = true ->
      category_box p = st_info "Category: ⭐ Mid-Range Vehicle")
  /\ (py_gt_int p 15000 = false ->
      category_box p = st_warning "Category: 💰 Budget-Friendly Vehicle")
  /\ (p = VFloat S754_nan \/ p = VFloat (S754_infinity true) ->
      category_box p = st_warning "Category: 💰 Budget-Friendly Vehicle").
Proof.
  assert (Hmono : py_gt_int p 30000 = true -> py_gt_int p 15000 = true).
  { destruct p as [n | f]; simpl.
    - rewrite !Z.gtb_ltb, !Z.ltb_lt. lia.
    - apply float_gt_int_mono. lia. }
  unfold category_box, price_analysis.
  split; [| split; [| split]].
  - intros H. now rewrite H.
  - intros H1 H2. now rewrite H1, H2.
  - intros H. destruct (py_gt_int p 30000) eqn:H3.
    + rewrite Hmono in H by reflexivity. discriminate.
    + now rewrite H.
  - intros [-> | ->]; reflexivity.
Qed.

Lemma category_box_example :
  py_gt_int (VInt 64342) 30000 = true
  /\ category_box (VInt 64342) = st_success "Category: 🏆 Premium Vehicle".
Proof.
  split; [reflexivity |].
  exact (proj1 (category_box_matches_price (VInt 64342)) eq_refl).
Defined.

(** * More on the encoder and the request *)

Lemma get_In (d : Dict.t) (k : string) (v : pyval) :
  Dict.get d k = Some v -> In (k, v) d.
Proof.
  induction d as [| [k0 v0] d IH]; simpl; [discriminate |].
  destruct (String.eqb_spec k0 k) as [-> | _].
  - intros H. inversion H. now left.
  - intros H. right. now apply IH.
Qed.

Lemma keys_raw_input_complete (cols : list string) (inp : RawInputs) :
  (forall n, In n num_cols -> In n cols) ->
  Dict.keys (raw_input cols inp) = Dict.keys (init_columns cols).
Proof.
  intros Hnum. rewrite keys_raw_input, keys_raw_input_numeric.
  assert (Hall : forall n, In n num_cols -> py_in n cols = true)
    by (intros n Hn; apply py_in_true; auto).
  simpl. rewrite !Hall by (simpl; tauto). simpl. apply app_nil_r.
Qed.

(** X9: for a schema without repeated names that has the five numeric
    names, the columns of the frame given to the model are exactly the
    schema, in the schema's order, before and after scaling. *)
Theorem frame_columns_are_schema (cols : list string) (inp : RawInputs) :
  NoDup cols -> (forall n, In n num_cols -> In n cols) ->
  Dict.keys (raw_input cols inp) = cols
  /\ forall ys,
       Dict.keys (DataFrame.assign (raw_input cols inp) num_cols ys) = cols.
Proof.
  intros Hnd Hnum.
  assert (Hkeys : Dict.keys (raw_input cols inp) = cols)
    by (rewrite keys_raw_input_complete by assumption;
        now apply keys_init_NoDup).
  split; [exact Hkeys |].
  intros ys. rewrite keys_assign; [exact Hkeys |].
  intros n Hn. now apply num_cols_in_keys.
Qed.

Lemma frame_columns_full_schema :
  NoDup Scenario.full_schema
  /\ (forall n, In n num_cols -> In n Scenario.full_schema)
  /\ Dict.keys (raw_input Scenario.full_schema Scenario.kuga_request)
     = Scenario.full_schema.
Proof.
  assert (Hnd : NoDup Scenario.full_schema)
    by (repeat constructor; simpl; intuition discriminate).
  assert (Hnum : forall n, In n num_cols -> In n Scenario.full_schema)
    by (simpl; intuition).
  split; [exact Hnd |]. split; [exact Hnum |].
  exact (proj1 (frame_columns_are_schema Scenario.full_schema
                  Scenario.kuga_request Hnd Hnum)).
Defined.

(** X10: whatever the schema (repeated names, missing numeric names), the
    encoded vector has no repeated column, its columns are exactly the
    schema's names and the five numeric names, and there are at most five
    more columns than schema entries. *)
Theorem frame_columns_unique (cols : list string) (inp : RawInputs) :
  NoDup (Dict.keys (raw_input cols inp))
  /\ (forall k, In k (Dict.keys (raw_input cols inp))
                <-> In k cols \/ In k num_cols)
  /\ (List.length (Dict.keys (raw_input cols inp))
      <= List.length cols + 5)%nat.
Proof.
  split; [apply NoDup_keys_raw_input |]. split.
  - intros k. rewrite keys_raw_input, keys_raw_input_numeric.
    rewrite in_app_iff, filter_In, in_keys_init, negb_true_iff, py_in_false.
    destruct (in_dec string_dec k cols); tauto.
  - rewrite keys_raw_input, keys_raw_input_numeric, length_app.
    assert (Hinit : (List.length (Dict.keys (init_columns cols))
                     <= List.length cols)%nat).
    { apply NoDup_incl_length; [apply NoDup_keys_init |].
      intros k Hk. exact (proj1 (in_keys_init cols k) Hk). }
    pose proof (filter_length_le (fun m => negb (py_in m cols)) num_cols)
      as Hfilter.
    change (List.length num_cols) with 5%nat in Hfilter. lia.
Qed.

(** X11: the hot slots of a family are known exactly: the candidate
    column alone, holding 1, when the schema has it, and none otherwise. *)
Theorem hot_slots_exact (cols : list string) (inp : RawInputs) :
  hot_slots "model_" (raw_input cols inp)
  = (if py_in (model_col cols inp) cols
     then [(model_col cols inp, VInt 1)] else [])
  /\ hot_slots "transmission_" (raw_input cols inp)
     = (if py_in (trans_col inp) cols
        then [(trans_col inp, VInt 1)] else [])
  /\ hot_slots "fuelType_" (raw_input cols inp)
     = (if py_in (fuel_col inp) cols
        then [(fuel_col inp, VInt 1)] else []).
Proof.
  assert (Hexact : forall fam cand,
    (fam = "model_" /\ cand = model_col cols inp)
    \/ (fam = "transmission_" /\ cand = trans_col inp)
    \/ (fam = "fuelType_" /\ cand = fuel_col inp) ->
    in_family fam cand = true ->
    hot_slots fam (raw_input cols inp)
    = if py_in cand cols then [(cand, VInt 1)] else []).
  { intros fam cand Hfam Hcand.
    pose proof (hot_slots_family cols inp fam cand Hfam) as Hlen.
    assert (Hmem : forall kv, In kv (hot_slots fam (raw_input cols inp)) ->
                              kv = (cand, VInt 1) /\ py_in cand cols = true).
    { intros [k v] Hin. unfold hot_slots in Hin. apply filter_In in Hin.
      destruct Hin as [Hin Hp]. simpl in Hp.
      apply andb_prop in Hp. destruct Hp as [Hk Hv].
      apply DictFacts.In_get in Hin; [| apply NoDup_keys_raw_input].
      destruct v as [n | f]; [| discriminate].
      assert (n = 1%Z) by (destruct n as [| [ | | ] | ]; try discriminate;
                           reflexivity).
      subst n.
      apply (family_slot_hot_iff cols inp fam cand k Hfam Hk) in Hin.
      destruct Hin as [-> Hc]. apply py_in_true in Hc. tauto. }
    destruct (py_in cand cols) eqn:Hc.
    - assert (Hin : In (cand, VInt 1) (hot_slots fam (raw_input cols inp))).
      { unfold hot_slots. apply filter_In. split.
        - apply get_In.
          apply (family_slot_hot_iff cols inp fam cand cand Hfam Hcand).
          apply py_in_true in Hc. tauto.
        - simpl. now rewrite Hcand. }
      destruct (hot_slots fam (raw_input cols inp)) as [| kv [| kv' rest]].
      + contradiction.
      + destruct (Hmem kv) as [-> _]; [now left | reflexivity].
      + simpl in Hlen. lia.
    - destruct (hot_slots fam (raw_input cols inp)) as [| kv rest];
        [reflexivity |].
      destruct (Hmem kv) as [_ Habs]; [now left | discriminate]. }
  split; [| split].
  - apply Hexact; [tauto | apply model_col_family].
  - apply Hexact; [tauto | apply trans_col_family].
  - apply Hexact; [tauto | apply fuel_col_family].
Qed.

(** X12: for model "Focus" and a schema that has both "model_Focus" and
    "model_ Focus", only "model_Focus" is activated; "model_ Focus"
    stays 0. *)
Theorem focus_prefers_exact_column (cols : list string) (inp : RawInputs) :
  selected_model inp = "Focus" ->
  In "model_Focus" cols -> In "model_ Focus" cols ->
  Dict.get (raw_input cols inp) "model_Focus" = Some (VInt 1)
  /\ Dict.get (raw_input cols inp) "model_ Focus" = Some (VInt 0).
Proof.
  intros Hsel Hexact Hspaced.
  assert (Hcol : model_col cols inp = "model_Focus").
  { unfold model_col. apply py_in_true in Hexact.
    now rewrite Hsel, Hexact. }
  apply py_in_true in Hexact. apply py_in_true in Hspaced.
  split.
  - rewrite (get_family_slot cols inp "model_" (model_col cols inp))
      by (tauto || reflexivity).
    now rewrite Hexact, Hcol.
  - rewrite (get_family_slot cols inp "model_" (model_col cols inp))
      by (tauto || reflexivity).
    now rewrite Hspaced, Hcol.
Qed.

Lemma focus_prefers_exact_column_example :
  In "model_Focus" ["year"; "model_ Focus"; "model_Focus"]
  /\ Dict.get (raw_input ["year"; "model_ Focus"; "model_Focus"]
                 Scenario.focus_request) "model_ Focus" = Some (VInt 0).
Proof.
  assert (H1 : In "model_Focus" ["year"; "model_ Focus"; "model_Focus"])
    by (simpl; tauto).
  assert (H2 : In "model_ Focus" ["year"; "model_ Focus"; "model_Focus"])
    by (simpl; tauto).
  split; [exact H1 |].
  exact (proj2 (focus_prefers_exact_column
                  ["year"; "model_ Focus"; "model_Focus"]
                  Scenario.focus_request eq_refl H1 H2)).
Defined.

Lemma append_inj (p a b : string) : p ++ a = p ++ b -> a = b.
Proof.
  induction p as [| c p IH]; simpl; intros H.
  - exact H.
  - inversion H. now apply IH.
Qed.

Lemma eqb_family_false (fam c k : string) :
  in_family fam c = true -> in_family fam k = false -> String.eqb c k = false.
Proof. intros Hc Hk. apply String.eqb_neq. intros ->. congruence. Qed.

(** X13: two different selections never share a column: for one schema,
    the candidate column determines the selected model, and likewise for
    transmission and fuel type. *)
Theorem candidate_columns_are_injective (cols : list string)
        (inp inp' : RawInputs) :
  (model_col cols inp = model_col cols inp' ->
   selected_model inp = selected_model inp')
  /\ (trans_col inp = trans_col inp' ->
      selected_trans inp = selected_trans inp')
  /\ (fuel_col inp = fuel_col inp' ->
      selected_fuel inp = selected_fuel inp').
Proof.
  split; [| split].
  - destruct (model_col_cases cols inp) as [[Hs [_ Hc]] | [_ Hc]];
      destruct (model_col_cases cols inp') as [[Hs' [_ Hc']] | [_ Hc']];
      rewrite Hc, Hc'; intros H.
    + congruence.
    + discriminate H.
    + discriminate H.
    + now apply append_inj in H.
  - apply append_inj.
  - apply append_inj.
Qed.

Lemma candidate_columns_example :
  trans_col Scenario.focus_request = trans_col Scenario.kuga_request
  /\ selected_trans Scenario.focus_request
     = selected_trans Scenario.kuga_request.
Proof.
  split; [reflexivity |].
  exact (proj1 (proj2 (candidate_columns_are_injective Scenario.full_schema
                         Scenario.focus_request Scenario.kuga_request))
           eq_refl).
Defined.

(** X14: the three categorical inputs are encoded independently: changing
    the selected model changes no slot outside the model_ family,
    changing the transmission none outside transmission_, and changing the
    fuel type none outside fuelType_. *)
Theorem categorical_inputs_are_independent (cols : list string)
        (inp : RawInputs) (v k : string) :
  (in_family "model_" k = false ->
   Dict.get (raw_input cols (with_model inp v)) k
   = Dict.get (raw_input cols inp) k)
  /\ (in_family "transmission_" k = false ->
      Dict.get (raw_input cols (with_trans inp v)) k
      = Dict.get (raw_input cols inp) k)
  /\ (in_family "fuelType_" k = false ->
      Dict.get (raw_input cols (with_fuel inp v)) k
      = Dict.get (raw_input cols inp) k).
Proof.
  rewrite !get_raw_input, !get_raw_input_numeric.
  split; [| split]; intros Hk.
  - rewrite !(eqb_family_false "model_" _ k (model_col_family cols _) Hk).
    rewrite !andb_false_r. reflexivity.
  - rewrite !(eqb_family_false "transmission_" _ k (trans_col_family _) Hk).
    rewrite !andb_false_r. reflexivity.
  - rewrite !(eqb_family_false "fuelType_" _ k (fuel_col_family _) Hk).
    rewrite !andb_false_r. reflexivity.
Qed.

Lemma categorical_inputs_example :
  in_family "fuelType_" "transmission_Manual" = false
  /\ Dict.get (raw_input Scenario.full_schema
                 (with_fuel Scenario.focus_request "Diesel"))
       "transmission_Manual"
     = Dict.get (raw_input Scenario.full_schema Scenario.focus_request)
         "transmission_Manual".
Proof.
  split; [reflexivity |].
  exact (proj2 (proj2 (categorical_inputs_are_independent
                         Scenario.full_schema Scenario.focus_request
                         "Diesel" "transmission_Manual")) eq_refl).
Defined.

(** X15: numeric and categorical inputs do not leak into each other: two
    requests with the same three selections agree on every slot other
    than the five numeric ones, and what the scaler receives depends on the
    five numeric values only, not on the selections nor on the schema. *)
Theorem numeric_and_categorical_are_separate (cols cols' : list string)
        (inp inp' : RawInputs) :
  (selected_model inp = selected_model inp' ->
   selected_trans inp = selected_trans inp' ->
   selected_fuel inp = selected_fuel inp' ->
   forall k, ~ In k num_cols ->
     Dict.get (raw_input cols inp) k = Dict.get (raw_input cols inp') k)
  /\ (numeric_values inp = numeric_values inp' ->
      DataFrame.getitem (raw_input cols inp) num_cols
      = DataFrame.getitem (raw_input cols' inp') num_cols).
Proof.
  split.
  - intros Hm Ht Hf k Hk. rewrite !get_other_slot by assumption.
    unfold model_col, trans_col, fuel_col. now rewrite Hm, Ht, Hf.
  - intros Hnum.
    transitivity (@inr exn _ (numeric_values inp));
      [apply get_numeric_slots |].
    rewrite Hnum. symmetry. apply get_numeric_slots.
Qed.

Lemma numeric_and_categorical_example :
  numeric_values Scenario.focus_request = numeric_values Scenario.kuga_request
  /\ DataFrame.getitem
       (raw_input Scenario.full_schema Scenario.focus_request) num_cols
     = DataFrame.getitem
         (raw_input Scenario.bare_schema Scenario.kuga_request) num_cols.
Proof.
  split; [reflexivity |].
  exact (proj2 (numeric_and_categorical_are_separate Scenario.full_schema
                  Scenario.bare_schema Scenario.focus_request
                  Scenario.kuga_request) eq_refl).
Defined.

(** X16: when scaling fails (the scaler raises, or returns a row that has
    not five values) the model plays no part: an error box is shown, and it
    is the same whatever the model is. *)
Theorem model_unused_when_scaling_fails (inp : RawInputs)
        (s s' : artifacts) :
  columns s = columns s' ->
  scaler_transform s (numeric_values inp)
  = scaler_transform s' (numeric_values inp) ->
  (forall ys, scaler_transform s (numeric_values inp) = inr ys ->
              List.length ys <> 5%nat) ->
  fst (on_click inp s) = fst (on_click inp s')
  /\ exists e, fst (on_click inp s) = report (inl e)
               /\ (exn_class e = "ValueError"
                   \/ scaler_transform s (numeric_values inp) = inl e).
Proof.
  intros Hcols Hsame Hbad. rewrite !on_click_eq, <- Hcols, <- Hsame. simpl fst.
  destruct (scaler_transform s (numeric_values inp)) as [e | ys].
  - split; [reflexivity |]. exists e. tauto.
  - specialize (Hbad ys eq_refl). unfold DataFrame.setitem.
    destruct (Nat.eqb_spec (List.length num_cols) (List.length ys)) as [E | E].
    + exfalso. apply Hbad. now rewrite <- E.
    + split; [reflexivity |]. eexists. split; [reflexivity |]. now left.
Qed.

Lemma model_unused_example :
  fst (on_click Scenario.focus_request
         (Scenario.failing_scaler Scenario.value_error Scenario.full_schema))
  = fst (on_click Scenario.focus_request
           (mk_artifacts (fun _ => inl Scenario.type_error)
              (fun _ => inl Scenario.value_error) Scenario.full_schema)).
Proof.
  refine (proj1 (model_unused_when_scaling_fails Scenario.focus_request
                   (Scenario.failing_scaler Scenario.value_error
                      Scenario.full_schema)
                   (mk_artifacts (fun _ => inl Scenario.type_error)
                      (fun _ => inl Scenario.value_error)
                      Scenario.full_schema)
                   eq_refl eq_refl _)).
  intros ys H. discriminate H.
Defined.

(** X17: a model that returns an empty output never yields a price: the
    indexing of line 255 raises an [IndexError], shown as an error box,
    and the cached artifacts are untouched. *)
Theorem empty_model_output_is_an_error (inp : RawInputs) (s : artifacts)
        (input_df : DataFrame.t) :
  scale (raw_input (columns s) inp) s = (inr input_df, s) ->
  model_predict s input_df = inr [] ->
  exists e, exn_class e = "IndexError"
            /\ on_click inp s = (report (inl e), s).
Proof.
  intros Hscale Hmodel.
  apply scale_inr in Hscale. destruct Hscale as [ys [Hs [Hlen ->]]].
  eexists. split; [| rewrite on_click_eq, Hs, setitem_num_cols, Hmodel
                       by assumption; reflexivity].
  reflexivity.
Qed.

Lemma empty_model_output_example :
  exists e, exn_class e = "IndexError"
    /\ on_click Scenario.focus_request
         (mk_artifacts (fun _ => inr []) Scenario.mock_transform
            Scenario.full_schema)
       = (report (inl e),
          mk_artifacts (fun _ => inr []) Scenario.mock_transform
            Scenario.full_schema).
Proof.
  refine (empty_model_output_is_an_error Scenario.focus_request
            (mk_artifacts (fun _ => inr []) Scenario.mock_transform
               Scenario.full_schema) _ _ eq_refl).
  reflexivity.
Defined.

Lemma value_indicator_cases (a m : Z) :
  (value_indicator a m = "💎 Premium" <-> (a < 3 /\ m < 30000)%Z)
  /\ (value_indicator a m = "💰 Budget Friendly"
      <-> (7 <= a \/ 80000 <= m \/ (3 <= a /\ 80000 <= m)
           \/ (30000 <= m /\ 7 <= a))%Z).
Proof.
  unfold value_indicator.
  destruct (Z.ltb_spec a 3), (Z.ltb_spec m 30000), (Z.ltb_spec a 7),
    (Z.ltb_spec m 80000); simpl;
    split; split; intros; try discriminate; try reflexivity; lia.
Qed.

(** X18: the market position is monotone: a car that is no older and has
    no more miles than a "Premium" one is "Premium" too, and a car that is
    no younger and has no fewer miles than a "Budget Friendly" one is
    "Budget Friendly" too. *)
Theorem market_position_is_monotone (a a' m m' : Z) :
  (a <= a')%Z -> (m <= m')%Z ->
  (value_indicator a' m' = "💎 Premium" -> value_indicator a m = "💎 Premium")
  /\ (value_indicator a m = "💰 Budget Friendly" ->
      value_indicator a' m' = "💰 Budget Friendly").
Proof.
  intros Ha Hm.
  destruct (value_indicator_cases a m) as [Hp Hb].
  destruct (value_indicator_cases a' m') as [Hp' Hb'].
  split; intros H.
  - apply Hp. apply Hp' in H. lia.
  - apply Hb'. apply Hb in H. lia.
Qed.

Lemma market_position_example :
  (1 <= 2)%Z /\ (12000 <= 25000)%Z
  /\ value_indicator 2 25000 = "💎 Premium"
  /\ value_indicator 1 12000 = "💎 Premium".
Proof.
  assert (Ha : (1 <= 2)%Z) by lia.
  assert (Hm : (12000 <= 25000)%Z) by lia.
  split; [exact Ha |]. split; [exact Hm |]. split; [reflexivity |].
  exact (proj1 (market_position_is_monotone 1 2 12000 25000 Ha Hm) eq_refl).
Defined.

(** X19: the badges agree with the market position: a "Premium" position
    comes with the "new" age badge and the "Low" mileage badge, and the
    "old" age badge or the "High" mileage badge comes with the "Budget
    Friendly" position. *)
Theorem badges_match_market_position (a m : Z) :
  (value_indicator a m = "💎 Premium" ->
   age_emoji a = "🆕" /\ mileage_delta m = "Low")
  /\ (age_emoji a = "👴" -> value_indicator a m = "💰 Budget Friendly")
  /\ (mileage_delta m = "High" ->
      value_indicator a m = "💰 Budget Friendly").
Proof.
  destruct (value_indicator_cases a m) as [Hp Hb].
  unfold age_emoji, mileage_delta.
  split; [| split]; intros H.
  - apply Hp in H.
    destruct (Z.ltb_spec a 3); [| lia].
    destruct (Z.ltb_spec m 50000); [tauto | lia].
  - apply Hb.
    destruct (Z.ltb_spec a 3); [discriminate |].
    destruct (Z.ltb_spec a 7); [discriminate | lia].
  - apply Hb.
    destruct (Z.ltb_spec m 50000); [discriminate |].
    rewrite Z.gtb_ltb in H.
    destruct (Z.ltb_spec 100000 m); [lia | discriminate].
Qed.

Lemma badges_match_example :
  age_emoji 9 = "👴" /\ value_indicator 9 12000 = "💰 Budget Friendly".
Proof.
  split; [reflexivity |].
  exact (proj1 (proj2 (badges_match_market_position 9 12000)) eq_refl).
Defined.

(** * The handler over the object store *)

Section StoreFacts.
Import PyStore.
Local Open Scope list_scope.

Context {E : Type}.
Variable ms : methods E.
Variable env : cache.

Lemma hwrite_same (h : heap E) (l : loc) (o : obj E) :
  nth_error h l = Some o -> hwrite h l o = h.
Proof.
  revert l. induction h as [| x h IH]; intros [| l] H; simpl in *;
    try discriminate.
  - now inversion H.
  - now rewrite IH.
Qed.

Lemma hwrite_last (h t : heap E) (o o' : obj E) :
  hwrite (h ++ o :: t) (List.length h) o' = (h ++ o' :: t)%list.
Proof. induction h as [| x h IH]; simpl; [reflexivity | now rewrite IH]. Qed.

Lemma nth_error_last (h t : heap E) (o : obj E) :
  nth_error (h ++ o :: t) (List.length h) = Some o.
Proof. induction h as [| x h IH]; simpl; [reflexivity | exact IH]. Qed.

Lemma nth_error_before (h t : heap E) (l : loc) (o : obj E) :
  nth_error h l = Some o -> nth_error (h ++ t) l = Some o.
Proof.
  intros H. rewrite nth_error_app1; [exact H |].
  apply nth_error_Some. congruence.
Qed.

Lemma cached_app (h t : heap E) (cols : list string) (ss sm : E) :
  cached env h cols ss sm -> cached env (h ++ t) cols ss sm.
Proof.
  intros [Hc [Hs Hm]]. repeat split; now apply nth_error_before.
Qed.

Lemma bind_st_eq {A B} (m : St E A) (k : A -> St E B) (h h' : heap E)
      (x : A) :
  m h = (inr x, h') -> bind_st m k h = k x h'.
Proof. intros H. unfold bind_st. now rewrite H. Qed.

Lemma bind_st_err {A B} (m : St E A) (k : A -> St E B) (h h' : heap E)
      (e : exn) :
  m h = (inl e, h') -> bind_st m k h = (inl e, h').
Proof. intros H. unfold bind_st. now rewrite H. Qed.

Lemma list_read_ok (h : heap E) (l : loc) (names : list string) :
  nth_error h l = Some (OList names) -> list_read l h = (inr names, h).
Proof. intros H. unfold list_read, bind_st, hread. now rewrite H. Qed.

Lemma list_contains_ok (h : heap E) (l : loc) (names : list string)
      (k : string) :
  nth_error h l = Some (OList names) ->
  list_contains l k h = (inr (py_in k names), h).
Proof.
  intros H. unfold list_contains.
  now rewrite (bind_st_eq _ _ _ _ _ (list_read_ok h l names H)).
Qed.

Lemma dict_setitem_last (h t : heap E) (d : Dict.t) (k : string) (v : pyval) :
  dict_setitem (List.length h) k v (h ++ ODict d :: t)
  = (inr tt, (h ++ ODict (Dict.set d k v) :: t)%list).
Proof.
  unfold dict_setitem, bind_st, hread, hstore.
  now rewrite nth_error_last, hwrite_last.
Qed.

Lemma set_numeric_st_ok (h : heap E) (inp : RawInputs) (d : Dict.t) :
  set_numeric_st (List.length h) inp (h ++ [ODict d])
  = (inr tt, (h ++ [ODict (set_numeric inp d)])%list).
Proof.
  unfold set_numeric_st, set_numeric.
  repeat (erewrite bind_st_eq by apply dict_setitem_last).
  apply dict_setitem_last.
Qed.

Lemma set_model_st_ok (h : heap E) (inp : RawInputs) (d : Dict.t)
      (cols : list string) :
  nth_error h (c_columns env) = Some (OList cols) ->
  set_model_st env (List.length h) inp (h ++ [ODict d])
  = (inr tt, (h ++ [ODict (set_model cols inp d)])%list).
Proof.
  intros Hc. apply (nth_error_before h [ODict d]) in Hc.
  unfold set_model_st, set_model.
  destruct (String.eqb (selected_model inp) "Focus"); cbn [andb].
  - rewrite (bind_st_eq _ _ _ _ _ (list_contains_ok _ _ _ _ Hc)).
    destruct (py_in "model_Focus" cols); [apply dict_setitem_last |].
    rewrite (bind_st_eq _ _ _ _ _ (list_contains_ok _ _ _ _ Hc)).
    destruct (py_in _ cols); [apply dict_setitem_last | reflexivity].
  - unfold bind_st at 1. unfold ret_st at 1.
    rewrite (bind_st_eq _ _ _ _ _ (list_contains_ok _ _ _ _ Hc)).
    destruct (py_in _ cols); [apply dict_setitem_last | reflexivity].
Qed.

Lemma set_trans_st_ok (h : heap E) (inp : RawInputs) (d : Dict.t)
      (cols : list string) :
  nth_error h (c_columns env) = Some (OList cols) ->
  set_trans_st env (List.length h) inp (h ++ [ODict d])
  = (inr tt, (h ++ [ODict (set_trans cols inp d)])%list).
Proof.
  intros Hc. apply (nth_error_before h [ODict d]) in Hc.
  unfold set_trans_st, set_trans.
  rewrite (bind_st_eq _ _ _ _ _ (list_contains_ok _ _ _ _ Hc)).
  destruct (py_in _ cols); [apply dict_setitem_last | reflexivity].
Qed.

Lemma set_fuel_st_ok (h : heap E) (inp : RawInputs) (d : Dict.t)
      (cols : list string) :
  nth_error h (c_columns env) = Some (OList cols) ->
  set_fuel_st env (List.length h) inp (h ++ [ODict d])
  = (inr tt, (h ++ [ODict (set_fuel cols inp d)])%list).
Proof.
  intros Hc. apply (nth_error_before h [ODict d]) in Hc.
  unfold set_fuel_st, set_fuel.
  rewrite (bind_st_eq _ _ _ _ _ (list_contains_ok _ _ _ _ Hc)).
  destruct (py_in _ cols); [apply dict_setitem_last | reflexivity].
Qed.

(** The encoder allocates one dict and writes to nothing else. *)
Lemma raw_input_st_ok (h : heap E) (inp : RawInputs) (cols : list string) :
  nth_error h (c_columns env) = Some (OList cols) ->
  raw_input_st env inp h
  = (inr (List.length h), (h ++ [ODict (raw_input cols inp)])%list).
Proof.
  intros Hc. unfold raw_input_st.
  rewrite (bind_st_eq _ _ _ _ _ (list_read_ok h _ cols Hc)).
  unfold bind_st at 1. unfold halloc at 1.
  rewrite (bind_st_eq _ _ _ _ _ (set_numeric_st_ok h inp _)).
  rewrite (bind_st_eq _ _ _ _ _ (set_model_st_ok h inp _ cols Hc)).
  rewrite (bind_st_eq _ _ _ _ _ (set_trans_st_ok h inp _ cols Hc)).
  rewrite (bind_st_eq _ _ _ _ _ (set_fuel_st_ok h inp _ cols Hc)).
  reflexivity.
Qed.

Lemma frame_of_dict_last (h : heap E) (d : Dict.t) :
  frame_of_dict (List.length h) (h ++ [ODict d])
  = (inr (List.length (h ++ [ODict d])),
     ((h ++ [ODict d]) ++ [OFrame d])%list).
Proof.
  unfold frame_of_dict, bind_st, hread. now rewrite nth_error_last.
Qed.

Lemma frame_getitem_last (g : heap E) (df : DataFrame.t)
      (names : list string) :
  frame_getitem (List.length g) names (g ++ [OFrame df])
  = (DataFrame.getitem df names, (g ++ [OFrame df])%list).
Proof.
  unfold frame_getitem, bind_st, hread. rewrite nth_error_last.
  unfold lift_st. now destruct (DataFrame.getitem df names).
Qed.

Lemma frame_setitem_last (g : heap E) (df : DataFrame.t)
      (names : list string) (row : list pyval) :
  frame_setitem (List.length g) names row (g ++ [OFrame df])
  = match DataFrame.setitem df names row with
    | inl e => (inl e, (g ++ [OFrame df])%list)
    | inr df' => (inr tt, (g ++ [OFrame df'])%list)
    end.
Proof.
  unfold frame_setitem, bind_st, hread. rewrite nth_error_last.
  destruct (DataFrame.setitem df names row); [reflexivity |].
  unfold hstore. now rewrite hwrite_last.
Qed.

Lemma call_transform_ok (h : heap E) (l : loc) (st : E) (xs : list pyval) :
  nth_error h l = Some (OEstimator st) ->
  call_transform ms l xs h
  = (fst (transform ms st xs),
     hwrite h l (OEstimator (snd (transform ms st xs)))).
Proof.
  intros H. unfold call_transform, bind_st, hread. rewrite H.
  destruct (transform ms st xs) as [r st']. unfold hstore, lift_st. simpl.
  now destruct r.
Qed.

Lemma call_predict_ok (h : heap E) (l f : loc) (st : E) (df : DataFrame.t) :
  nth_error h l = Some (OEstimator st) ->
  nth_error h f = Some (OFrame df) ->
  call_predict ms l f h
  = (fst (predict ms st df),
     hwrite h l (OEstimator (snd (predict ms st df)))).
Proof.
  intros H F. unfold call_predict, bind_st, hread. rewrite H, F.
  destruct (predict ms st df) as [r st']. unfold hstore, lift_st. simpl.
  now destruct r.
Qed.

End StoreFacts.

Section StoreRuns.
Local Open Scope list_scope.

(** One press over the store, with estimators whose calls leave their
    state as it was: the result is the one of the state-free model, and the
    store is the old one followed by the two objects the press created. *)
Lemma on_click_st_spec {E : Type} (ms : PyStore.methods E)
      (env : PyStore.cache) (h : PyStore.heap E) (cols : list string)
      (ss sm : E) (inp : RawInputs) :
  PyStore.cached env h cols ss sm ->
  (forall xs, snd (PyStore.transform ms ss xs) = ss) ->
  (forall df, snd (PyStore.predict ms sm df) = sm) ->
  exists df,
    PyStore.on_click_st ms env inp h
    = (fst (on_click inp (PyStore.artifacts_of ms cols ss sm)),
       ((h ++ [PyStore.ODict (raw_input cols inp)])
          ++ [PyStore.OFrame df])%list).
Proof.
  intros Hcached Rs Rm.
  pose proof Hcached as [Hc _].
  set (raw := raw_input cols inp).
  set (g := (h ++ [PyStore.ODict raw])%list).
  assert (Hg : forall df, PyStore.cached env (g ++ [PyStore.OFrame df]) cols
                            ss sm).
  { intros df. unfold g. now do 2 apply cached_app. }
  rewrite on_click_eq. unfold PyStore.artifacts_of. simpl fst.
  cbn [scaler_transform model_predict columns].
  unfold PyStore.on_click_st, PyStore.try_body_st.
  rewrite (bind_st_eq _ _ _ _ _ (raw_input_st_ok env h inp cols Hc)).
  rewrite (bind_st_eq _ _ _ _ _ (frame_of_dict_last h raw)).
  fold g raw.
  assert (Hget : PyStore.frame_getitem (List.length g) num_cols
                   (g ++ [PyStore.OFrame raw])
                 = (inr (numeric_values inp), (g ++ [PyStore.OFrame raw])%list)).
  { rewrite frame_getitem_last. f_equal. apply get_numeric_slots. }
  rewrite (bind_st_eq _ _ _ _ _ Hget).
  destruct (Hg raw) as [_ [Hs Hm]].
  pose proof (call_transform_ok ms _ _ _ (numeric_values inp) Hs) as Ht.
  rewrite Rs, (hwrite_same _ _ _ Hs) in Ht.
  destruct (fst (PyStore.transform ms ss (numeric_values inp)))
    as [e | ys] eqn:Hys.
  { exists raw. now rewrite (bind_st_err _ _ _ _ _ Ht). }
  rewrite (bind_st_eq _ _ _ _ _ Ht).
  pose proof (frame_setitem_last g raw num_cols ys) as Hset.
  destruct (DataFrame.setitem raw num_cols ys) as [e | df'] eqn:Hdf.
  { exists raw. now rewrite (bind_st_err _ _ _ _ _ Hset). }
  rewrite (bind_st_eq _ _ _ _ _ Hset).
  destruct (Hg df') as [_ [_ Hm']].
  pose proof (call_predict_ok ms _ _ (List.length g) sm df' Hm'
                (nth_error_last g [] (PyStore.OFrame df'))) as Hp.
  rewrite Rm, (hwrite_same _ _ _ Hm') in Hp.
  exists df'.
  destruct (fst (PyStore.predict ms sm df')) as [e | out] eqn:Hout.
  { now rewrite (bind_st_err _ _ _ _ _ Hp). }
  rewrite (bind_st_eq _ _ _ _ _ Hp). unfold PyStore.lift_st.
  reflexivity.
Qed.

(** The store can tell a stateful estimator: a scaler that changes its own
    state at each call makes two equal presses show different prices. *)
Lemma drifting_scaler_is_not_repeatable :
  fst (PyStore.on_click_st StoreScenario.drifting StoreScenario.env
         Scenario.focus_request
         (StoreScenario.store Scenario.full_schema))
  = PriceDisplay (VInt 32171)
  /\ fst (PyStore.on_click_st StoreScenario.drifting StoreScenario.env
            Scenario.focus_request
            (snd (PyStore.on_click_st StoreScenario.drifting
                    StoreScenario.env Scenario.focus_request
                    (StoreScenario.store Scenario.full_schema))))
     = PriceDisplay (VInt 32174).
Proof. split; reflexivity. Qed.

(** C7: with a scaler and a model whose calls leave them as they were, a
    press of the button changes no object that existed before it (the
    cached schema, scaler and model included); it only creates its own
    dict and frame.  A second press with the same inputs, run on the store
    the first one left behind, shows the same result, which is the one the
    inputs and the cached artifacts determine. *)
Theorem presses_are_repeatable {E : Type} (ms : PyStore.methods E)
        (env : PyStore.cache) (h : PyStore.heap E) (cols : list string)
        (ss sm : E) (inp : RawInputs) :
  PyStore.cached env h cols ss sm ->
  (forall xs, snd (PyStore.transform ms ss xs) = ss) ->
  (forall df, snd (PyStore.predict ms sm df) = sm) ->
  fst (PyStore.on_click_st ms env inp
         (snd (PyStore.on_click_st ms env inp h)))
  = fst (PyStore.on_click_st ms env inp h)
  /\ fst (PyStore.on_click_st ms env inp h)
     = fst (on_click inp (PyStore.artifacts_of ms cols ss sm))
  /\ PyStore.cached env (snd (PyStore.on_click_st ms env inp h)) cols ss sm
  /\ (forall l o,
        nth_error h l = Some o ->
        nth_error (snd (PyStore.on_click_st ms env inp h)) l = Some o
        /\ nth_error
             (snd (PyStore.on_click_st ms env inp
                     (snd (PyStore.on_click_st ms env inp h)))) l
           = Some o)
  /\ List.length (snd (PyStore.on_click_st ms env inp h))
     = (List.length h + 2)%nat.
Proof.
  intros Hcached Rs Rm.
  destruct (on_click_st_spec ms env h cols ss sm inp Hcached Rs Rm)
    as [df H1].
  rewrite H1. simpl fst. simpl snd.
  assert (Hcached1 : PyStore.cached env
            ((h ++ [PyStore.ODict (raw_input cols inp)])
               ++ [PyStore.OFrame df])%list cols ss sm)
    by (now do 2 apply cached_app).
  destruct (on_click_st_spec ms env _ cols ss sm inp Hcached1 Rs Rm)
    as [df2 H2].
  rewrite H2. simpl fst. simpl snd.
  split; [reflexivity |]. split; [reflexivity |].
  split; [exact Hcached1 |]. split.
  - intros l o Hl. split.
    + now do 2 apply nth_error_before.
    + now do 4 apply nth_error_before.
  - rewrite !length_app. simpl. lia.
Qed.

Lemma presses_are_repeatable_fitted :
  PyStore.cached StoreScenario.env
    (StoreScenario.store Scenario.full_schema) Scenario.full_schema 0%Z 0%Z
  /\ fst (PyStore.on_click_st StoreScenario.fitted StoreScenario.env
            Scenario.focus_request
            (snd (PyStore.on_click_st StoreScenario.fitted StoreScenario.env
                    Scenario.focus_request
                    (StoreScenario.store Scenario.full_schema))))
     = fst (PyStore.on_click_st StoreScenario.fitted StoreScenario.env
              Scenario.focus_request
              (StoreScenario.store Scenario.full_schema)).
Proof.
  assert (Hcached : PyStore.cached StoreScenario.env
            (StoreScenario.store Scenario.full_schema)
            Scenario.full_schema 0%Z 0%Z)
    by (repeat split).
  split; [exact Hcached |].
  exact (proj1 (presses_are_repeatable StoreScenario.fitted StoreScenario.env
                  (StoreScenario.store Scenario.full_schema)
                  Scenario.full_schema 0%Z 0%Z Scenario.focus_request
                  Hcached (fun _ => eq_refl) (fun _ => eq_refl))).
Defined.

End StoreRuns.
